(** * Xclipse 940 Vulkan layer: a shallow embedding and its properties

    The development follows the two translation units of the layer:

    - [layer_init.cpp]: the static layer identity, the proc-address
      resolvers and the layer enumeration query;
    - [xclipse_wrapper.cpp]: the [Xclipse940Wrapper] class (pipeline cache,
      device context, the four intercepted calls) and the loader
      negotiation entry point.

    Conventions of the embedding.

    - Unsigned machine integers are [Z] with their wrap-around written out
      ([wrap32], [wrap64]); loop counters and array lengths are [nat].
    - Handles and pointers that are only compared or passed on are [Z];
      the null handle and the null pointer are [0].
    - A pointer the code reads or writes through is modelled by the cell it
      points to: [option] for a pointer that may be null, a finite map from
      addresses to structures for caller memory that several descriptors
      may share.
    - A C array argument is a [list] next to its element count, as in the
      source.  A loop [for (i = 0; i < count; ++i)] runs over the indices
      [seq 0 count]; reading an element the list does not have is undefined
      in C++, and the model skips that iteration.
    - The calls the wrapper makes under the Vulkan names
      ([vkCreateGraphicsPipelines], [vkAllocateMemory], ...) are modelled
      twice.  [XclipseWrapper] keeps the callee as a parameter
      ([NextLayer]) and describes the body of each member function given
      an answer of the callee; it carries the invariants of the wrapper
      state, which hold whatever the callee does.  [Linked] binds the names
      the way xclipse_wrapper.cpp does, to the entry points the file itself
      defines in its [extern "C"] block, and carries the statements about
      the calls the layer really makes. *)

From Stdlib Require Import ZArith Lia Ascii String.
From stdpp Require Import gmap strings list fin_maps.

#[local] Open Scope Z_scope.

(** ** Machine integers and Vulkan constants *)

Definition wrap32 (x : Z) : Z := x mod 2 ^ 32.
Definition wrap64 (x : Z) : Z := x mod 2 ^ 64.

(** [~x] on a 32-bit unsigned operand. *)
Definition not32 (x : Z) : Z := wrap32 (Z.lnot x).

Definition VkResult := Z.
Definition VK_SUCCESS : VkResult := 0.
Definition VK_ERROR_INITIALIZATION_FAILED : VkResult := -3.
Definition VK_PIPELINE_COMPILE_REQUIRED : VkResult := 1000297000.
Definition VK_ERROR_OUT_OF_DEVICE_MEMORY : VkResult := -2.

Definition VK_NULL_HANDLE : Z := 0.
Definition VK_FALSE : Z := 0.
Definition VK_TRUE : Z := 1.

Definition VK_CULL_MODE_NONE : Z := 0.
Definition VK_CULL_MODE_FRONT_BIT : Z := 1.
Definition VK_CULL_MODE_BACK_BIT : Z := 2.

Definition VK_SAMPLE_COUNT_1_BIT : Z := 1.
Definition VK_SAMPLE_COUNT_4_BIT : Z := 4.

Definition VK_MEMORY_PROPERTY_DEVICE_LOCAL_BIT : Z := 1.

Definition LAYER_NEGOTIATE_INTERFACE_STRUCT : Z := 1.

Definition VK_MAKE_API_VERSION (variant major minor patch : Z) : Z :=
  wrap32 (Z.lor (Z.lor (Z.lor (Z.shiftl variant 29) (Z.shiftl major 22))
                       (Z.shiftl minor 12)) patch).

Inductive VkPipelineBindPoint : Type :=
| VK_PIPELINE_BIND_POINT_GRAPHICS
| VK_PIPELINE_BIND_POINT_COMPUTE.

#[global] Instance VkPipelineBindPoint_eq_dec : EqDecision VkPipelineBindPoint.
Proof. solve_decision. Defined.

(** ** C strings

    A [string] stands for the bytes found at a [const char*]; the C string
    it denotes ends at the first NUL byte (or at the end of the bytes
    given). *)

Definition NUL : ascii := Ascii.zero.

Fixpoint c_str (s : string) : string :=
  match s with
  | EmptyString => EmptyString
  | String c r => if Ascii.eqb c NUL then EmptyString else String c (c_str r)
  end.

Definition uchar (c : ascii) : Z := Z.of_nat (nat_of_ascii c).

(** [std::strcmp]: the difference of the first pair of bytes that differ,
    compared as [unsigned char]; [0] when both strings end together. *)
Fixpoint strcmp (s1 s2 : string) : Z :=
  match s1, s2 with
  | EmptyString, EmptyString => 0
  | EmptyString, String c2 _ => - uchar c2
  | String c1 _, EmptyString => uchar c1
  | String c1 r1, String c2 r2 =>
      if Ascii.eqb c1 c2
      then (if Ascii.eqb c1 NUL then 0 else strcmp r1 r2)
      else uchar c1 - uchar c2
  end%Z.

(** ** layer_init.cpp *)

Module LayerInit.

Record VkLayerProperties : Type := {
  layerName : string;
  specVersion : Z;
  implementationVersion : Z;
  description : string
}.

Definition layer_properties : VkLayerProperties := {|
  layerName := "VK_LAYER_XCLIPSE_940";
  specVersion := VK_MAKE_API_VERSION 0 1 3 0;
  implementationVersion := 1;
  description := "Xclipse 940 GPU Optimization Layer"
|}.

(** The four entry points this layer puts in front of the next link. *)
Inductive Intercepted : Type :=
| vkCreateGraphicsPipelines
| vkCreateComputePipelines
| vkQueueSubmit
| vkAllocateMemory.

(** A [PFN_vkVoidFunction] is either the address of one of the layer's own
    entry points or a pointer value obtained elsewhere (a lower link's
    function, or null, which is [foreign 0]).  The layer's own functions
    have addresses that no other pointer value equals. *)
Inductive PFN_vkVoidFunction : Type :=
| layer_entry (f : Intercepted)
| foreign (p : Z).

Definition nullptr : PFN_vkVoidFunction := foreign 0.

(** [PFN_vkGetInstanceProcAddr] / [PFN_vkGetDeviceProcAddr] of the next
    link: [None] is the null function pointer. *)
Definition PFN_vkGetProcAddr : Type := option (Z -> string -> Z).

Record LayerData : Type := {
  get_instance_proc_addr : PFN_vkGetProcAddr;
  get_device_proc_addr : PFN_vkGetProcAddr
}.

Definition vkGetInstanceProcAddr (g_layer_data : LayerData)
    (instance : Z) (pName : string) : PFN_vkVoidFunction :=
  if (strcmp pName "vkCreateGraphicsPipelines" =? 0)%Z
  then layer_entry vkCreateGraphicsPipelines
  else if (strcmp pName "vkCreateComputePipelines" =? 0)%Z
  then layer_entry vkCreateComputePipelines
  else if (strcmp pName "vkQueueSubmit" =? 0)%Z
  then layer_entry vkQueueSubmit
  else if (strcmp pName "vkAllocateMemory" =? 0)%Z
  then layer_entry vkAllocateMemory
  else match get_instance_proc_addr g_layer_data with
       | Some next => foreign (next instance pName)
       | None => nullptr
       end.

Definition vkGetDeviceProcAddr (g_layer_data : LayerData)
    (device : Z) (pName : string) : PFN_vkVoidFunction :=
  if (strcmp pName "vkCreateGraphicsPipelines" =? 0)%Z
  then layer_entry vkCreateGraphicsPipelines
  else if (strcmp pName "vkCreateComputePipelines" =? 0)%Z
  then layer_entry vkCreateComputePipelines
  else if (strcmp pName "vkQueueSubmit" =? 0)%Z
  then layer_entry vkQueueSubmit
  else if (strcmp pName "vkAllocateMemory" =? 0)%Z
  then layer_entry vkAllocateMemory
  else match get_device_proc_addr g_layer_data with
       | Some next => foreign (next device pName)
       | None => nullptr
       end.

(** The names compared against, with the entry point each one selects. *)
Definition allow_list : list (string * Intercepted) :=
  [ ("vkCreateGraphicsPipelines", vkCreateGraphicsPipelines);
    ("vkCreateComputePipelines", vkCreateComputePipelines);
    ("vkQueueSubmit", vkQueueSubmit);
    ("vkAllocateMemory", vkAllocateMemory) ].

(** What [vkEnumerateInstanceLayerProperties] leaves behind: the status,
    the cell behind [pPropertyCount] ([None] when the pointer is null) and
    the elements stored through [pProperties], by index, in order. *)
Record EnumerateOutcome : Type := {
  enum_result : VkResult;
  enum_count : option Z;
  enum_stores : list (nat * VkLayerProperties)
}.

(** [pPropertyCount] is given by the value of the cell it points to on
    entry ([None] for a null pointer); [pProperties] is the address of the
    caller's array, which the function writes through but never reads. *)
Definition vkEnumerateInstanceLayerProperties
    (pPropertyCount : option Z) (pProperties : Z) : EnumerateOutcome :=
  (* if (pPropertyCount) *pPropertyCount = 1; *)
  let cell := match pPropertyCount with
              | Some _ => Some 1
              | None => None
              end in
  (* if (pProperties && pPropertyCount && *pPropertyCount >= 1) memcpy(...) *)
  let stores :=
    if negb (pProperties =? 0)
       && match cell with
          | Some c => 1 <=? c
          | None => false
          end
    then [(0%nat, layer_properties)]
    else [] in
  {| enum_result := VK_SUCCESS; enum_count := cell; enum_stores := stores |}.

End LayerInit.

(** ** Counted loops over C arrays *)

(** [for (i = 0; i < count; ++i) body(arr[i])], threading the state [s]. *)
Definition for_each {A S : Type} (count : nat) (arr : list A)
    (body : A -> S -> S) (s : S) : S :=
  foldl (fun acc i => match arr !! i with
                      | Some a => body a acc
                      | None => acc
                      end) s (seq 0 count).

(** ** xclipse_wrapper.cpp *)

Module XclipseWrapper.

Definition kComputeUnits : Z := 12.
Definition kWavefrontSize : Z := 32.
Definition kCacheLineSize : Z := 64.

(** *** Vulkan structures the wrapper receives

    Fields of type [float] are carried as their 32-bit patterns; the code
    copies them and never computes with them. *)

Record VkPipelineRasterizationStateCreateInfo : Type := {
  rast_sType : Z;
  rast_pNext : Z;
  rast_flags : Z;
  depthClampEnable : Z;
  rasterizerDiscardEnable : Z;
  polygonMode : Z;
  cullMode : Z;
  frontFace : Z;
  depthBiasEnable : Z;
  depthBiasConstantFactor : Z;
  depthBiasClamp : Z;
  depthBiasSlopeFactor : Z;
  lineWidth : Z
}.

Record VkPipelineMultisampleStateCreateInfo : Type := {
  ms_sType : Z;
  ms_pNext : Z;
  ms_flags : Z;
  rasterizationSamples : Z;
  sampleShadingEnable : Z;
  minSampleShading : Z;
  pSampleMask : Z;
  alphaToCoverageEnable : Z;
  alphaToOneEnable : Z
}.

Record VkGraphicsPipelineCreateInfo : Type := {
  gci_sType : Z;
  gci_pNext : Z;
  gci_flags : Z;
  stageCount : Z;
  pStages : Z;
  pVertexInputState : Z;
  pInputAssemblyState : Z;
  pTessellationState : Z;
  pViewportState : Z;
  pRasterizationState : Z;
  pMultisampleState : Z;
  pDepthStencilState : Z;
  pColorBlendState : Z;
  pDynamicState : Z;
  gci_layout : Z;
  renderPass : Z;
  subpass : Z;
  gci_basePipelineHandle : Z;
  gci_basePipelineIndex : Z
}.

Record VkPipelineShaderStageCreateInfo : Type := {
  ssci_sType : Z;
  ssci_pNext : Z;
  ssci_flags : Z;
  ssci_stage : Z;
  module : Z;
  pName : Z;
  pSpecializationInfo : Z
}.

Record VkComputePipelineCreateInfo : Type := {
  cci_sType : Z;
  cci_pNext : Z;
  cci_flags : Z;
  stage : VkPipelineShaderStageCreateInfo;
  cci_layout : Z;
  cci_basePipelineHandle : Z;
  cci_basePipelineIndex : Z
}.

Record VkMemoryAllocateInfo : Type := {
  mai_sType : Z;
  mai_pNext : Z;
  allocationSize : Z;
  memoryTypeIndex : Z
}.

Record VkSubmitInfo : Type := {
  si_sType : Z;
  si_pNext : Z;
  waitSemaphoreCount : Z;
  pWaitSemaphores : Z;
  pWaitDstStageMask : Z;
  commandBufferCount : Z;
  pCommandBuffers : Z;
  signalSemaphoreCount : Z;
  pSignalSemaphores : Z
}.

Record VkMemoryType : Type := {
  propertyFlags : Z;
  heapIndex : Z
}.

Record VkMemoryHeap : Type := {
  heap_size : Z;
  heap_flags : Z
}.

Record VkPhysicalDeviceMemoryProperties : Type := {
  memoryTypeCount : Z;
  memoryTypes : list VkMemoryType;
  memoryHeapCount : Z;
  memoryHeaps : list VkMemoryHeap
}.

(** The limits and sparse-properties blocks are never read by the layer
    and are carried as words. *)
Record VkPhysicalDeviceProperties : Type := {
  apiVersion : Z;
  driverVersion : Z;
  vendorID : Z;
  deviceID : Z;
  deviceType : Z;
  deviceName : string;
  pipelineCacheUUID : list Z;
  limits : list Z;
  sparseProperties : list Z
}.

(** *** Caller memory reached through descriptor pointers

    Graphics descriptors point to their rasterization and multisample
    states; several descriptors of a batch may point to the same one. *)
Record Memory : Type := {
  rasterization_states : gmap Z VkPipelineRasterizationStateCreateInfo;
  multisample_states : gmap Z VkPipelineMultisampleStateCreateInfo
}.

(** *** The class state *)

Record PipelineState : Type := {
  pipeline : Z;
  usage_count : Z;
  bind_point : VkPipelineBindPoint;
  shader_stages : Z
}.

Record DeviceContext : Type := {
  physical_device : Z;
  device : Z;
  properties : VkPhysicalDeviceProperties;
  memory_properties : VkPhysicalDeviceMemoryProperties
}.

Record Xclipse940Wrapper : Type := {
  pipeline_cache_ : gmap Z PipelineState;
  device_context_ : option DeviceContext;
  features_initialized_ : bool
}.

(** [Xclipse940Wrapper() = default]. *)
Definition g_wrapper_initial : Xclipse940Wrapper := {|
  pipeline_cache_ := ∅;
  device_context_ := None;
  features_initialized_ := false
|}.

(** *** The callee of the member functions, as a parameter

    Each call a member function makes is described by the arguments the
    callee is handed; for the graphics call that includes the caller memory
    as it stands at the time of the call.  [NextLayer] gives, for each such
    call, an answer of the callee: a status and, for a creation call, the
    contents of the output array [pPipelines].  The member functions below
    are stated for an arbitrary answer; which function the callee is in the
    linked layer is the matter of the module [Linked]. *)

Record GraphicsPipelinesCall : Type := {
  gp_device : Z;
  gp_pipelineCache : Z;
  gp_createInfoCount : nat;
  gp_pCreateInfos : list VkGraphicsPipelineCreateInfo;
  gp_pAllocator : Z;
  gp_memory : Memory
}.

Record ComputePipelinesCall : Type := {
  cp_device : Z;
  cp_pipelineCache : Z;
  cp_createInfoCount : nat;
  cp_pCreateInfos : list VkComputePipelineCreateInfo;
  cp_pAllocator : Z
}.

Record AllocateMemoryCall : Type := {
  am_device : Z;
  am_pAllocateInfo : VkMemoryAllocateInfo;
  am_pAllocator : Z
}.

Record QueueSubmitCall : Type := {
  qs_queue : Z;
  qs_submitCount : nat;
  qs_pSubmits : list VkSubmitInfo;
  qs_fence : Z
}.

Record NextLayer : Type := {
  next_vkGetPhysicalDeviceProperties : Z -> VkPhysicalDeviceProperties;
  next_vkGetPhysicalDeviceMemoryProperties : Z -> VkPhysicalDeviceMemoryProperties;
  next_vkCreateGraphicsPipelines : GraphicsPipelinesCall -> VkResult * list Z;
  next_vkCreateComputePipelines : ComputePipelinesCall -> VkResult * list Z;
  next_vkAllocateMemory : AllocateMemoryCall -> VkResult * Z;
  next_vkQueueSubmit : QueueSubmitCall -> VkResult
}.

(** What an intercepted call leaves behind: the arguments of the one call
    it made into the next link, the status it returns, the output it hands
    back ([pPipelines], [pMemory]) and the wrapper state. *)
Record Outcome (C O : Type) : Type := {
  forwarded : C;
  returned : VkResult;
  output : O;
  wrapper : Xclipse940Wrapper
}.
Arguments forwarded {C O} _.
Arguments returned {C O} _.
Arguments output {C O} _.
Arguments wrapper {C O} _.

(** *** Field assignments *)

Definition set_depthBiasEnable (v : Z) (s : VkPipelineRasterizationStateCreateInfo) :=
  {| rast_sType := rast_sType s; rast_pNext := rast_pNext s; rast_flags := rast_flags s;
     depthClampEnable := depthClampEnable s;
     rasterizerDiscardEnable := rasterizerDiscardEnable s;
     polygonMode := polygonMode s; cullMode := cullMode s; frontFace := frontFace s;
     depthBiasEnable := v;
     depthBiasConstantFactor := depthBiasConstantFactor s;
     depthBiasClamp := depthBiasClamp s;
     depthBiasSlopeFactor := depthBiasSlopeFactor s; lineWidth := lineWidth s |}.

Definition set_depthClampEnable (v : Z) (s : VkPipelineRasterizationStateCreateInfo) :=
  {| rast_sType := rast_sType s; rast_pNext := rast_pNext s; rast_flags := rast_flags s;
     depthClampEnable := v;
     rasterizerDiscardEnable := rasterizerDiscardEnable s;
     polygonMode := polygonMode s; cullMode := cullMode s; frontFace := frontFace s;
     depthBiasEnable := depthBiasEnable s;
     depthBiasConstantFactor := depthBiasConstantFactor s;
     depthBiasClamp := depthBiasClamp s;
     depthBiasSlopeFactor := depthBiasSlopeFactor s; lineWidth := lineWidth s |}.

Definition set_rasterizerDiscardEnable (v : Z) (s : VkPipelineRasterizationStateCreateInfo) :=
  {| rast_sType := rast_sType s; rast_pNext := rast_pNext s; rast_flags := rast_flags s;
     depthClampEnable := depthClampEnable s;
     rasterizerDiscardEnable := v;
     polygonMode := polygonMode s; cullMode := cullMode s; frontFace := frontFace s;
     depthBiasEnable := depthBiasEnable s;
     depthBiasConstantFactor := depthBiasConstantFactor s;
     depthBiasClamp := depthBiasClamp s;
     depthBiasSlopeFactor := depthBiasSlopeFactor s; lineWidth := lineWidth s |}.

Definition set_cullMode (v : Z) (s : VkPipelineRasterizationStateCreateInfo) :=
  {| rast_sType := rast_sType s; rast_pNext := rast_pNext s; rast_flags := rast_flags s;
     depthClampEnable := depthClampEnable s;
     rasterizerDiscardEnable := rasterizerDiscardEnable s;
     polygonMode := polygonMode s; cullMode := v; frontFace := frontFace s;
     depthBiasEnable := depthBiasEnable s;
     depthBiasConstantFactor := depthBiasConstantFactor s;
     depthBiasClamp := depthBiasClamp s;
     depthBiasSlopeFactor := depthBiasSlopeFactor s; lineWidth := lineWidth s |}.

Definition set_rasterizationSamples (v : Z) (s : VkPipelineMultisampleStateCreateInfo) :=
  {| ms_sType := ms_sType s; ms_pNext := ms_pNext s; ms_flags := ms_flags s;
     rasterizationSamples := v;
     sampleShadingEnable := sampleShadingEnable s;
     minSampleShading := minSampleShading s; pSampleMask := pSampleMask s;
     alphaToCoverageEnable := alphaToCoverageEnable s;
     alphaToOneEnable := alphaToOneEnable s |}.

Definition set_allocationSize (v : Z) (info : VkMemoryAllocateInfo) :=
  {| mai_sType := mai_sType info; mai_pNext := mai_pNext info;
     allocationSize := v; memoryTypeIndex := memoryTypeIndex info |}.

Definition set_usage_count (v : Z) (st : PipelineState) :=
  {| pipeline := pipeline st; usage_count := v;
     bind_point := bind_point st; shader_stages := shader_stages st |}.

Definition set_pipeline_cache_ (m : gmap Z PipelineState) (w : Xclipse940Wrapper) :=
  {| pipeline_cache_ := m; device_context_ := device_context_ w;
     features_initialized_ := features_initialized_ w |}.

Definition set_rasterization_states
    (m : gmap Z VkPipelineRasterizationStateCreateInfo) (mem : Memory) :=
  {| rasterization_states := m; multisample_states := multisample_states mem |}.

Definition set_multisample_states
    (m : gmap Z VkPipelineMultisampleStateCreateInfo) (mem : Memory) :=
  {| rasterization_states := rasterization_states mem; multisample_states := m |}.

(** *** Private member functions *)

Definition OptimizeRasterizationState (state : VkPipelineRasterizationStateCreateInfo)
    : VkPipelineRasterizationStateCreateInfo :=
  let state := set_depthBiasEnable VK_FALSE state in
  let state := set_depthClampEnable VK_FALSE state in
  let state := set_rasterizerDiscardEnable VK_FALSE state in
  if cullMode state =? VK_CULL_MODE_NONE
  then set_cullMode VK_CULL_MODE_BACK_BIT state
  else state.

Definition OptimizeMultisampleState (state : VkPipelineMultisampleStateCreateInfo)
    : VkPipelineMultisampleStateCreateInfo :=
  if rasterizationSamples state =? VK_SAMPLE_COUNT_1_BIT
  then state
  else set_rasterizationSamples
         (Z.min (rasterizationSamples state) VK_SAMPLE_COUNT_4_BIT) state.

(** [kCacheLineSize] is a [uint32_t], so [~(kCacheLineSize - 1)] is
    computed on 32 bits and then widened with zeros for the [&] with the
    64-bit [allocationSize]. *)
Definition cache_line_mask : Z := not32 (wrap32 (kCacheLineSize - 1)).

(** The read of the memory type decides nothing: both ways out of the
    [if] leave [info] as it is after the rounding.  [device_context_] is
    dereferenced; it is set whenever [features_initialized_] is (see
    [initialized_has_context]). *)
Definition OptimizeMemoryAllocation (device_context_ : option DeviceContext)
    (info : VkMemoryAllocateInfo) : VkMemoryAllocateInfo :=
  let info :=
    set_allocationSize
      (Z.land (wrap64 (wrap64 (allocationSize info + kCacheLineSize) - 1))
              cache_line_mask) info in
  match device_context_ with
  | Some ctx =>
      if memoryTypeIndex info <? memoryTypeCount (memory_properties ctx)
      then match memoryTypes (memory_properties ctx) !! Z.to_nat (memoryTypeIndex info) with
           | Some memory_type =>
               if negb (Z.land (propertyFlags memory_type)
                               VK_MEMORY_PROPERTY_DEVICE_LOCAL_BIT =? 0)
               then info
               else info
           | None => info
           end
      else info
  | None => info
  end.

Definition OptimizeComputePipeline (pipeline : Z) (w : Xclipse940Wrapper)
    : Xclipse940Wrapper :=
  match pipeline_cache_ w !! pipeline with
  | Some st =>
      set_pipeline_cache_
        (<[pipeline := set_usage_count (wrap64 (usage_count st + 1)) st]>
           (pipeline_cache_ w)) w
  | None => w
  end.

Definition IsLikelyComputeWorkload (submit : VkSubmitInfo) : bool :=
  2 <? commandBufferCount submit.

Definition IsLikelyTransferWorkload (submit : VkSubmitInfo) : bool :=
  commandBufferCount submit =? 1.

(** The three local vectors of [OptimizeQueueSubmission]; a pointer
    [&submits[i]] is represented by the index [i]. *)
Record SubmissionClasses : Type := {
  compute_submits : list nat;
  graphics_submits : list nat;
  transfer_submits : list nat
}.

Definition classify_submit (entry : nat * VkSubmitInfo) (c : SubmissionClasses)
    : SubmissionClasses :=
  let '(i, submit) := entry in
  if IsLikelyComputeWorkload submit
  then {| compute_submits := compute_submits c ++ [i];
          graphics_submits := graphics_submits c;
          transfer_submits := transfer_submits c |}
  else if IsLikelyTransferWorkload submit
  then {| compute_submits := compute_submits c;
          graphics_submits := graphics_submits c;
          transfer_submits := transfer_submits c ++ [i] |}
  else {| compute_submits := compute_submits c;
          graphics_submits := graphics_submits c ++ [i];
          transfer_submits := transfer_submits c |}.

(** The vectors are locals: they are built and dropped, and the function
    returns nothing. *)
Definition OptimizeQueueSubmission (submits : list VkSubmitInfo) (count : nat)
    : SubmissionClasses :=
  for_each count (imap (fun i s => (i, s)) submits) classify_submit
    {| compute_submits := []; graphics_submits := []; transfer_submits := [] |}.

Definition CachePipelines (pipelines : list Z) (count : nat)
    (bind_point : VkPipelineBindPoint) (w : Xclipse940Wrapper) : Xclipse940Wrapper :=
  for_each count pipelines
    (fun p w =>
       let state := {| pipeline := p; usage_count := 1;
                       bind_point := bind_point; shader_stages := 0 |} in
       set_pipeline_cache_ (<[p := state]> (pipeline_cache_ w)) w)
    w.

(** *** Public member functions *)

Definition InitializeDeviceContext (next : NextLayer) (physical_device device : Z)
    (w : Xclipse940Wrapper) : bool * Xclipse940Wrapper :=
  if (physical_device =? 0) || (device =? 0)
  then (false, w)
  else
    let ctx := {| physical_device := physical_device;
                  device := device;
                  properties := next_vkGetPhysicalDeviceProperties next physical_device;
                  memory_properties :=
                    next_vkGetPhysicalDeviceMemoryProperties next physical_device |} in
    (true, {| pipeline_cache_ := pipeline_cache_ w;
              device_context_ := Some ctx;
              features_initialized_ := true |}).

(** One turn of the descriptor loop of [CreateGraphicsPipelines]: the copy
    [optimized] shares the two state pointers with the caller's descriptor,
    so the states are rewritten where they lie, in caller memory. *)
Definition optimize_descriptor (info : VkGraphicsPipelineCreateInfo)
    (acc : Memory * list VkGraphicsPipelineCreateInfo)
    : Memory * list VkGraphicsPipelineCreateInfo :=
  let '(mem, optimized_infos) := acc in
  let optimized := info in
  let mem :=
    if negb (pRasterizationState optimized =? 0)
    then set_rasterization_states
           (alter OptimizeRasterizationState (pRasterizationState optimized)
                  (rasterization_states mem)) mem
    else mem in
  let mem :=
    if negb (pMultisampleState optimized =? 0)
    then set_multisample_states
           (alter OptimizeMultisampleState (pMultisampleState optimized)
                  (multisample_states mem)) mem
    else mem in
  (mem, optimized_infos ++ [optimized]).

Definition CreateGraphicsPipelines (next : NextLayer) (w : Xclipse940Wrapper)
    (mem : Memory) (device pipelineCache : Z) (createInfoCount : nat)
    (pCreateInfos : list VkGraphicsPipelineCreateInfo) (pAllocator : Z)
    : Outcome GraphicsPipelinesCall (list Z) :=
  if negb (features_initialized_ w)
  then
    let call := {| gp_device := device; gp_pipelineCache := pipelineCache;
                   gp_createInfoCount := createInfoCount;
                   gp_pCreateInfos := pCreateInfos;
                   gp_pAllocator := pAllocator; gp_memory := mem |} in
    let '(result, pPipelines) := next_vkCreateGraphicsPipelines next call in
    {| forwarded := call; returned := result; output := pPipelines; wrapper := w |}
  else
    let '(mem, optimized_infos) :=
      for_each createInfoCount pCreateInfos optimize_descriptor (mem, []) in
    let call := {| gp_device := device; gp_pipelineCache := pipelineCache;
                   gp_createInfoCount := createInfoCount;
                   gp_pCreateInfos := optimized_infos;
                   gp_pAllocator := pAllocator; gp_memory := mem |} in
    let '(result, pPipelines) := next_vkCreateGraphicsPipelines next call in
    let w := if result =? VK_SUCCESS
             then CachePipelines pPipelines createInfoCount
                                 VK_PIPELINE_BIND_POINT_GRAPHICS w
             else w in
    {| forwarded := call; returned := result; output := pPipelines; wrapper := w |}.

Definition CreateComputePipelines (next : NextLayer) (w : Xclipse940Wrapper)
    (device pipelineCache : Z) (createInfoCount : nat)
    (pCreateInfos : list VkComputePipelineCreateInfo) (pAllocator : Z)
    : Outcome ComputePipelinesCall (list Z) :=
  let call := {| cp_device := device; cp_pipelineCache := pipelineCache;
                 cp_createInfoCount := createInfoCount;
                 cp_pCreateInfos := pCreateInfos;
                 cp_pAllocator := pAllocator |} in
  let '(result, pPipelines) := next_vkCreateComputePipelines next call in
  let w :=
    if (result =? VK_SUCCESS) && features_initialized_ w
    then
      let w := CachePipelines pPipelines createInfoCount
                              VK_PIPELINE_BIND_POINT_COMPUTE w in
      for_each createInfoCount pPipelines OptimizeComputePipeline w
    else w in
  {| forwarded := call; returned := result; output := pPipelines; wrapper := w |}.

Definition AllocateMemory (next : NextLayer) (w : Xclipse940Wrapper)
    (device : Z) (pAllocateInfo : VkMemoryAllocateInfo) (pAllocator : Z)
    : Outcome AllocateMemoryCall Z :=
  if negb (features_initialized_ w)
  then
    let call := {| am_device := device; am_pAllocateInfo := pAllocateInfo;
                   am_pAllocator := pAllocator |} in
    let '(result, pMemory) := next_vkAllocateMemory next call in
    {| forwarded := call; returned := result; output := pMemory; wrapper := w |}
  else
    let optimized_info := pAllocateInfo in
    let optimized_info := OptimizeMemoryAllocation (device_context_ w) optimized_info in
    let call := {| am_device := device; am_pAllocateInfo := optimized_info;
                   am_pAllocator := pAllocator |} in
    let '(result, pMemory) := next_vkAllocateMemory next call in
    {| forwarded := call; returned := result; output := pMemory; wrapper := w |}.

Definition QueueSubmit (next : NextLayer) (w : Xclipse940Wrapper)
    (queue : Z) (submitCount : nat) (pSubmits : list VkSubmitInfo) (fence : Z)
    : Outcome QueueSubmitCall unit :=
  let _classes :=
    if features_initialized_ w
    then Some (OptimizeQueueSubmission pSubmits submitCount)
    else None in
  let call := {| qs_queue := queue; qs_submitCount := submitCount;
                 qs_pSubmits := pSubmits; qs_fence := fence |} in
  {| forwarded := call; returned := next_vkQueueSubmit next call;
     output := tt; wrapper := w |}.

(** *** The loader negotiation entry point *)

(** The value of a resolver slot of the negotiation record: one of the
    layer's two resolvers, or a pointer value found there on entry (null is
    [slot_other 0]). *)
Inductive ResolverSlot : Type :=
| slot_vkGetInstanceProcAddr
| slot_vkGetDeviceProcAddr
| slot_other (p : Z).

Definition slot_nullptr : ResolverSlot := slot_other 0.

Record VkNegotiateLayerInterface : Type := {
  sType : Z;
  pNext : Z;
  loaderLayerInterfaceVersion : Z;
  pfnGetInstanceProcAddr : ResolverSlot;
  pfnGetDeviceProcAddr : ResolverSlot;
  pfnGetPhysicalDeviceProcAddr : ResolverSlot
}.

(** Returns the status and the record as it stands afterwards. *)
Definition vkNegotiateLoaderLayerInterfaceVersion
    (pVersionStruct : VkNegotiateLayerInterface)
    : VkResult * VkNegotiateLayerInterface :=
  if negb (sType pVersionStruct =? LAYER_NEGOTIATE_INTERFACE_STRUCT)
  then (VK_ERROR_INITIALIZATION_FAILED, pVersionStruct)
  else
    let s :=
      if 2 <=? loaderLayerInterfaceVersion pVersionStruct
      then {| sType := sType pVersionStruct; pNext := pNext pVersionStruct;
              loaderLayerInterfaceVersion := loaderLayerInterfaceVersion pVersionStruct;
              pfnGetInstanceProcAddr := slot_vkGetInstanceProcAddr;
              pfnGetDeviceProcAddr := slot_vkGetDeviceProcAddr;
              pfnGetPhysicalDeviceProcAddr := slot_nullptr |}
      else pVersionStruct in
    (VK_SUCCESS,
     {| sType := sType s; pNext := pNext s;
        loaderLayerInterfaceVersion := 2;
        pfnGetInstanceProcAddr := pfnGetInstanceProcAddr s;
        pfnGetDeviceProcAddr := pfnGetDeviceProcAddr s;
        pfnGetPhysicalDeviceProcAddr := pfnGetPhysicalDeviceProcAddr s |}).

(** *** Sequences of calls on the global wrapper *)

Inductive Call : Type :=
| CallInitializeDeviceContext (next : NextLayer) (physical_device device : Z)
| CallCreateGraphicsPipelines (next : NextLayer) (mem : Memory)
    (device pipelineCache : Z) (createInfoCount : nat)
    (pCreateInfos : list VkGraphicsPipelineCreateInfo) (pAllocator : Z)
| CallCreateComputePipelines (next : NextLayer)
    (device pipelineCache : Z) (createInfoCount : nat)
    (pCreateInfos : list VkComputePipelineCreateInfo) (pAllocator : Z)
| CallAllocateMemory (next : NextLayer)
    (device : Z) (pAllocateInfo : VkMemoryAllocateInfo) (pAllocator : Z)
| CallQueueSubmit (next : NextLayer)
    (queue : Z) (submitCount : nat) (pSubmits : list VkSubmitInfo) (fence : Z).

Definition step (w : Xclipse940Wrapper) (c : Call) : Xclipse940Wrapper :=
  match c with
  | CallInitializeDeviceContext next pd d => snd (InitializeDeviceContext next pd d w)
  | CallCreateGraphicsPipelines next mem d pc n infos a =>
      wrapper (CreateGraphicsPipelines next w mem d pc n infos a)
  | CallCreateComputePipelines next d pc n infos a =>
      wrapper (CreateComputePipelines next w d pc n infos a)
  | CallAllocateMemory next d info a => wrapper (AllocateMemory next w d info a)
  | CallQueueSubmit next q n subs f => wrapper (QueueSubmit next w q n subs f)
  end.

Definition run (calls : list Call) (w : Xclipse940Wrapper) : Xclipse940Wrapper :=
  foldl step w calls.

End XclipseWrapper.

(** ** The layer as a whole: both translation units behind their exported
    entry points *)

Module Layer.

(** *** Instance and device creation (layer_init.cpp) *)

(** The arguments of [vkCreateInstance] / [vkCreateDevice] as the next
    link receives them; the create-info and allocator structures are only
    passed on, by address. *)
Record CreateInstanceCall : Type := {
  ci_pCreateInfo : Z;
  ci_pAllocator : Z
}.

Record CreateDeviceCall : Type := {
  cd_physicalDevice : Z;
  cd_pCreateInfo : Z;
  cd_pAllocator : Z
}.

(** [PFN_vkCreateInstance] / [PFN_vkCreateDevice]: [None] is the null
    function pointer.  The callee answers with its status and with what it
    stores through the output pointer ([None] when it stores nothing). *)
Definition PFN_vkCreateInstance : Type :=
  option (CreateInstanceCall -> VkResult * option Z).
Definition PFN_vkCreateDevice : Type :=
  option (CreateDeviceCall -> VkResult * option Z).

(** The file-scope variables of layer_init.cpp. *)
Record Statics : Type := {
  g_layer_data : LayerInit.LayerData;
  vkCreateInstance_original : PFN_vkCreateInstance;
  vkCreateDevice_original : PFN_vkCreateDevice
}.

(** What a creation entry point leaves behind: the call made into the
    next link, if any, the status, and what was stored through the output
    pointer. *)
Record LifecycleOutcome (C : Type) : Type := {
  lc_forwarded : option C;
  lc_returned : VkResult;
  lc_output : option Z
}.
Arguments lc_forwarded {C} _.
Arguments lc_returned {C} _.
Arguments lc_output {C} _.

Definition vkCreateInstance (s : Statics) (pCreateInfo pAllocator : Z)
    : LifecycleOutcome CreateInstanceCall :=
  match vkCreateInstance_original s with
  | None =>
      {| lc_forwarded := None; lc_returned := VK_ERROR_INITIALIZATION_FAILED;
         lc_output := None |}
  | Some original =>
      let call := {| ci_pCreateInfo := pCreateInfo; ci_pAllocator := pAllocator |} in
      let '(result, pInstance) := original call in
      {| lc_forwarded := Some call; lc_returned := result; lc_output := pInstance |}
  end.

(** The body of [if (result == VK_SUCCESS)] is a comment: both branches
    return [result]. *)
Definition vkCreateDevice (s : Statics) (physicalDevice pCreateInfo pAllocator : Z)
    : LifecycleOutcome CreateDeviceCall :=
  match vkCreateDevice_original s with
  | None =>
      {| lc_forwarded := None; lc_returned := VK_ERROR_INITIALIZATION_FAILED;
         lc_output := None |}
  | Some original =>
      let call := {| cd_physicalDevice := physicalDevice;
                     cd_pCreateInfo := pCreateInfo;
                     cd_pAllocator := pAllocator |} in
      let '(result, pDevice) := original call in
      if result =? VK_SUCCESS
      then {| lc_forwarded := Some call; lc_returned := result; lc_output := pDevice |}
      else {| lc_forwarded := Some call; lc_returned := result; lc_output := pDevice |}
  end.

(** *** The state of the loaded layer and its exported entry points *)

Record LayerState : Type := {
  statics : Statics;
  g_wrapper : XclipseWrapper.Xclipse940Wrapper
}.

(** Static initialization: null function pointers, a default-constructed
    wrapper. *)
Definition layer_initial : LayerState := {|
  statics := {| g_layer_data := {| LayerInit.get_instance_proc_addr := None;
                                   LayerInit.get_device_proc_addr := None |};
                vkCreateInstance_original := None;
                vkCreateDevice_original := None |};
  g_wrapper := XclipseWrapper.g_wrapper_initial
|}.

(** One call of an [extern "C"] function of the layer.  The four
    intercepted entries come with the answer their callee is taken to
    give; what is proved over [entry] holds for every such answer. *)
Inductive EntryCall : Type :=
| Entry_vkNegotiateLoaderLayerInterfaceVersion
    (pVersionStruct : XclipseWrapper.VkNegotiateLayerInterface)
| Entry_vkEnumerateInstanceLayerProperties (pPropertyCount : option Z) (pProperties : Z)
| Entry_vkGetInstanceProcAddr (instance : Z) (pName : string)
| Entry_vkGetDeviceProcAddr (device : Z) (pName : string)
| Entry_vkCreateInstance (pCreateInfo pAllocator : Z)
| Entry_vkCreateDevice (physicalDevice pCreateInfo pAllocator : Z)
| Entry_vkCreateGraphicsPipelines (next : XclipseWrapper.NextLayer)
    (mem : XclipseWrapper.Memory) (device pipelineCache : Z) (createInfoCount : nat)
    (pCreateInfos : list XclipseWrapper.VkGraphicsPipelineCreateInfo) (pAllocator : Z)
| Entry_vkCreateComputePipelines (next : XclipseWrapper.NextLayer)
    (device pipelineCache : Z) (createInfoCount : nat)
    (pCreateInfos : list XclipseWrapper.VkComputePipelineCreateInfo) (pAllocator : Z)
| Entry_vkAllocateMemory (next : XclipseWrapper.NextLayer)
    (device : Z) (pAllocateInfo : XclipseWrapper.VkMemoryAllocateInfo) (pAllocator : Z)
| Entry_vkQueueSubmit (next : XclipseWrapper.NextLayer)
    (queue : Z) (submitCount : nat)
    (pSubmits : list XclipseWrapper.VkSubmitInfo) (fence : Z).

Inductive EntryResult : Type :=
| Res_negotiate (r : VkResult * XclipseWrapper.VkNegotiateLayerInterface)
| Res_enumerate (r : LayerInit.EnumerateOutcome)
| Res_proc_addr (r : LayerInit.PFN_vkVoidFunction)
| Res_create_instance (r : LifecycleOutcome CreateInstanceCall)
| Res_create_device (r : LifecycleOutcome CreateDeviceCall)
| Res_graphics (r : XclipseWrapper.Outcome XclipseWrapper.GraphicsPipelinesCall (list Z))
| Res_compute (r : XclipseWrapper.Outcome XclipseWrapper.ComputePipelinesCall (list Z))
| Res_allocate (r : XclipseWrapper.Outcome XclipseWrapper.AllocateMemoryCall Z)
| Res_submit (r : XclipseWrapper.Outcome XclipseWrapper.QueueSubmitCall unit).

(** The four intercepted entries are [return g_wrapper.Method(...)]; the
    others read the file-scope variables and the caller's arguments. *)
Definition entry (s : LayerState) (c : EntryCall) : LayerState * EntryResult :=
  match c with
  | Entry_vkNegotiateLoaderLayerInterfaceVersion v =>
      (s, Res_negotiate (XclipseWrapper.vkNegotiateLoaderLayerInterfaceVersion v))
  | Entry_vkEnumerateInstanceLayerProperties pc pp =>
      (s, Res_enumerate (LayerInit.vkEnumerateInstanceLayerProperties pc pp))
  | Entry_vkGetInstanceProcAddr i n =>
      (s, Res_proc_addr (LayerInit.vkGetInstanceProcAddr (g_layer_data (statics s)) i n))
  | Entry_vkGetDeviceProcAddr d n =>
      (s, Res_proc_addr (LayerInit.vkGetDeviceProcAddr (g_layer_data (statics s)) d n))
  | Entry_vkCreateInstance ci a =>
      (s, Res_create_instance (vkCreateInstance (statics s) ci a))
  | Entry_vkCreateDevice pd ci a =>
      (s, Res_create_device (vkCreateDevice (statics s) pd ci a))
  | Entry_vkCreateGraphicsPipelines next mem d pc n infos a =>
      let out := XclipseWrapper.CreateGraphicsPipelines next (g_wrapper s) mem d pc n infos a in
      ({| statics := statics s; g_wrapper := XclipseWrapper.wrapper out |}, Res_graphics out)
  | Entry_vkCreateComputePipelines next d pc n infos a =>
      let out := XclipseWrapper.CreateComputePipelines next (g_wrapper s) d pc n infos a in
      ({| statics := statics s; g_wrapper := XclipseWrapper.wrapper out |}, Res_compute out)
  | Entry_vkAllocateMemory next d info a =>
      let out := XclipseWrapper.AllocateMemory next (g_wrapper s) d info a in
      ({| statics := statics s; g_wrapper := XclipseWrapper.wrapper out |}, Res_allocate out)
  | Entry_vkQueueSubmit next q n subs f =>
      let out := XclipseWrapper.QueueSubmit next (g_wrapper s) q n subs f in
      ({| statics := statics s; g_wrapper := XclipseWrapper.wrapper out |}, Res_submit out)
  end.

Definition layer_run (calls : list EntryCall) (s : LayerState) : LayerState :=
  foldl (fun s c => (entry s c).1) s calls.

End Layer.

(** ** The intercepted entry points as they are bound in xclipse_wrapper.cpp

    Inside the member functions the names [vkCreateGraphicsPipelines],
    [vkCreateComputePipelines], [vkAllocateMemory] and [vkQueueSubmit]
    denote the functions of that name which the same file defines in its
    [extern "C"] block, each of them [return g_wrapper.Method(...)].  The
    call a member function makes is therefore a call of the layer's own
    entry point, on the same global wrapper.  This module follows that
    binding.  An entry point takes the number of nested entries it may
    still make ([depth]) and answers [None] when the call has not returned
    within it; every entry is logged with the arguments it received.

    The definitions of [XclipseWrapper] above keep the callee as a
    parameter ([NextLayer]): they describe the body of a member function
    given an answer of the callee, and are used for what holds of the
    wrapper state whatever the callee does. *)

Module Linked.

Inductive Entered : Type :=
| Entered_vkCreateGraphicsPipelines (c : XclipseWrapper.GraphicsPipelinesCall)
| Entered_vkCreateComputePipelines (c : XclipseWrapper.ComputePipelinesCall)
| Entered_vkAllocateMemory (c : XclipseWrapper.AllocateMemoryCall)
| Entered_vkQueueSubmit (c : XclipseWrapper.QueueSubmitCall).

(** The global wrapper, the caller memory the descriptors point to, and
    the entries made so far, oldest first. *)
Record Machine : Type := {
  g_wrapper : XclipseWrapper.Xclipse940Wrapper;
  memory : XclipseWrapper.Memory;
  entered : list Entered
}.

Definition enter (e : Entered) (m : Machine) : Machine :=
  {| g_wrapper := g_wrapper m; memory := memory m; entered := entered m ++ [e] |}.

Definition set_memory (mem : XclipseWrapper.Memory) (m : Machine) : Machine :=
  {| g_wrapper := g_wrapper m; memory := mem; entered := entered m |}.

Definition set_g_wrapper (w : XclipseWrapper.Xclipse940Wrapper) (m : Machine) : Machine :=
  {| g_wrapper := w; memory := memory m; entered := entered m |}.

(** Static initialization of the translation unit. *)
Definition loaded (mem : XclipseWrapper.Memory) : Machine :=
  {| g_wrapper := XclipseWrapper.g_wrapper_initial; memory := mem; entered := [] |}.

(** [vkQueueSubmit] -> [g_wrapper.QueueSubmit] -> [vkQueueSubmit]. *)
Fixpoint vkQueueSubmit (depth : nat) (m : Machine)
    (queue : Z) (submitCount : nat) (pSubmits : list XclipseWrapper.VkSubmitInfo)
    (fence : Z) : option VkResult * Machine :=
  match depth with
  | O => (None, m)
  | S depth =>
      let m := enter (Entered_vkQueueSubmit
                        {| XclipseWrapper.qs_queue := queue;
                           XclipseWrapper.qs_submitCount := submitCount;
                           XclipseWrapper.qs_pSubmits := pSubmits;
                           XclipseWrapper.qs_fence := fence |}) m in
      let _classes :=
        if XclipseWrapper.features_initialized_ (g_wrapper m)
        then Some (XclipseWrapper.OptimizeQueueSubmission pSubmits submitCount)
        else None in
      vkQueueSubmit depth m queue submitCount pSubmits fence
  end.

(** [vkAllocateMemory] -> [g_wrapper.AllocateMemory] -> [vkAllocateMemory].
    Nothing in the file writes through [pMemory]. *)
Fixpoint vkAllocateMemory (depth : nat) (m : Machine)
    (device : Z) (pAllocateInfo : XclipseWrapper.VkMemoryAllocateInfo)
    (pAllocator : Z) : option VkResult * Machine :=
  match depth with
  | O => (None, m)
  | S depth =>
      let m := enter (Entered_vkAllocateMemory
                        {| XclipseWrapper.am_device := device;
                           XclipseWrapper.am_pAllocateInfo := pAllocateInfo;
                           XclipseWrapper.am_pAllocator := pAllocator |}) m in
      if negb (XclipseWrapper.features_initialized_ (g_wrapper m))
      then vkAllocateMemory depth m device pAllocateInfo pAllocator
      else
        let optimized_info :=
          XclipseWrapper.OptimizeMemoryAllocation
            (XclipseWrapper.device_context_ (g_wrapper m)) pAllocateInfo in
        vkAllocateMemory depth m device optimized_info pAllocator
  end.

(** [vkCreateGraphicsPipelines] -> [g_wrapper.CreateGraphicsPipelines] ->
    [vkCreateGraphicsPipelines].  [pPipelines] is the caller's output
    array; nothing in the file writes to it. *)
Fixpoint vkCreateGraphicsPipelines (depth : nat) (m : Machine)
    (device pipelineCache : Z) (createInfoCount : nat)
    (pCreateInfos : list XclipseWrapper.VkGraphicsPipelineCreateInfo)
    (pAllocator : Z) (pPipelines : list Z) : option VkResult * Machine :=
  match depth with
  | O => (None, m)
  | S depth =>
      let m := enter (Entered_vkCreateGraphicsPipelines
                        {| XclipseWrapper.gp_device := device;
                           XclipseWrapper.gp_pipelineCache := pipelineCache;
                           XclipseWrapper.gp_createInfoCount := createInfoCount;
                           XclipseWrapper.gp_pCreateInfos := pCreateInfos;
                           XclipseWrapper.gp_pAllocator := pAllocator;
                           XclipseWrapper.gp_memory := memory m |}) m in
      if negb (XclipseWrapper.features_initialized_ (g_wrapper m))
      then vkCreateGraphicsPipelines depth m device pipelineCache createInfoCount
             pCreateInfos pAllocator pPipelines
      else
        let '(mem, optimized_infos) :=
          for_each createInfoCount pCreateInfos XclipseWrapper.optimize_descriptor
                   (memory m, []) in
        let m := set_memory mem m in
        let '(result, m) :=
          vkCreateGraphicsPipelines depth m device pipelineCache createInfoCount
            optimized_infos pAllocator pPipelines in
        match result with
        | Some r =>
            if r =? VK_SUCCESS
            then (Some r,
                  set_g_wrapper
                    (XclipseWrapper.CachePipelines pPipelines createInfoCount
                       VK_PIPELINE_BIND_POINT_GRAPHICS (g_wrapper m)) m)
            else (Some r, m)
        | None => (None, m)
        end
  end.

(** [vkCreateComputePipelines] -> [g_wrapper.CreateComputePipelines] ->
    [vkCreateComputePipelines]. *)
Fixpoint vkCreateComputePipelines (depth : nat) (m : Machine)
    (device pipelineCache : Z) (createInfoCount : nat)
    (pCreateInfos : list XclipseWrapper.VkComputePipelineCreateInfo)
    (pAllocator : Z) (pPipelines : list Z) : option VkResult * Machine :=
  match depth with
  | O => (None, m)
  | S depth =>
      let m := enter (Entered_vkCreateComputePipelines
                        {| XclipseWrapper.cp_device := device;
                           XclipseWrapper.cp_pipelineCache := pipelineCache;
                           XclipseWrapper.cp_createInfoCount := createInfoCount;
                           XclipseWrapper.cp_pCreateInfos := pCreateInfos;
                           XclipseWrapper.cp_pAllocator := pAllocator |}) m in
      let '(result, m) :=
        vkCreateComputePipelines depth m device pipelineCache createInfoCount
          pCreateInfos pAllocator pPipelines in
      match result with
      | Some r =>
          if (r =? VK_SUCCESS) && XclipseWrapper.features_initialized_ (g_wrapper m)
          then
            let w := XclipseWrapper.CachePipelines pPipelines createInfoCount
                       VK_PIPELINE_BIND_POINT_COMPUTE (g_wrapper m) in
            (Some r,
             set_g_wrapper
               (for_each createInfoCount pPipelines
                         XclipseWrapper.OptimizeComputePipeline w) m)
          else (Some r, m)
      | None => (None, m)
      end
  end.

End Linked.

(** ** Vocabulary of the statements *)

#[global] Instance Intercepted_eq_dec : EqDecision LayerInit.Intercepted.
Proof. solve_decision. Defined.

(** The names on the allow-list. *)
Definition allow_names : list string := (LayerInit.allow_list).*1.

(** Both resolvers walk the same chain of comparisons; this is the chain
    with the comparisons decided on the C string [pName] denotes. *)
Definition resolve_with (fallback : LayerInit.PFN_vkVoidFunction) (pName : string)
    : LayerInit.PFN_vkVoidFunction :=
  if bool_decide (c_str pName = "vkCreateGraphicsPipelines")
  then LayerInit.layer_entry LayerInit.vkCreateGraphicsPipelines
  else if bool_decide (c_str pName = "vkCreateComputePipelines")
  then LayerInit.layer_entry LayerInit.vkCreateComputePipelines
  else if bool_decide (c_str pName = "vkQueueSubmit")
  then LayerInit.layer_entry LayerInit.vkQueueSubmit
  else if bool_decide (c_str pName = "vkAllocateMemory")
  then LayerInit.layer_entry LayerInit.vkAllocateMemory
  else fallback.

Definition forward_lookup (resolver : LayerInit.PFN_vkGetProcAddr) (handle : Z) (pName : string)
    : LayerInit.PFN_vkVoidFunction :=
  match resolver with
  | Some next => LayerInit.foreign (next handle pName)
  | None => LayerInit.nullptr
  end.

(** [r] is the smallest multiple of [a] that is at least [s]. *)
Definition smallest_multiple_ge (a s r : Z) : Prop :=
  (a | r) /\ s <= r /\ forall r', (a | r') -> s <= r' -> r <= r'.

(** The record [CachePipelines] builds for the handle [p], with the usage
    counter at [usage]. *)
Definition created_state (bind_point : VkPipelineBindPoint) (usage : Z) (p : Z)
    : XclipseWrapper.PipelineState := {|
  XclipseWrapper.pipeline := p;
  XclipseWrapper.usage_count := usage;
  XclipseWrapper.bind_point := bind_point;
  XclipseWrapper.shader_stages := 0
|}.

(** [usage_count++] on a record. *)
Definition bump_usage (st : XclipseWrapper.PipelineState) : XclipseWrapper.PipelineState :=
  XclipseWrapper.set_usage_count (wrap64 (XclipseWrapper.usage_count st + 1)) st.

(** The handles of a batch: the first [count] cells of the output array. *)
Definition batch_handles (count : nat) (pPipelines : list Z) : list Z :=
  take count pPipelines.

(** A graphics descriptor read together with the two states it points to
    ([None] for a null pointer, or for an address that holds no state). *)
Record ResolvedDescriptor : Type := {
  rd_info : XclipseWrapper.VkGraphicsPipelineCreateInfo;
  rd_rasterization : option XclipseWrapper.VkPipelineRasterizationStateCreateInfo;
  rd_multisample : option XclipseWrapper.VkPipelineMultisampleStateCreateInfo
}.

Definition resolve (mem : XclipseWrapper.Memory)
    (info : XclipseWrapper.VkGraphicsPipelineCreateInfo) : ResolvedDescriptor := {|
  rd_info := info;
  rd_rasterization :=
    if XclipseWrapper.pRasterizationState info =? 0 then None
    else XclipseWrapper.rasterization_states mem
           !! XclipseWrapper.pRasterizationState info;
  rd_multisample :=
    if XclipseWrapper.pMultisampleState info =? 0 then None
    else XclipseWrapper.multisample_states mem
           !! XclipseWrapper.pMultisampleState info
|}.

(** The transformation of one descriptor, as a function of that descriptor
    alone. *)
Definition transform (r : ResolvedDescriptor) : ResolvedDescriptor := {|
  rd_info := rd_info r;
  rd_rasterization := XclipseWrapper.OptimizeRasterizationState <$> rd_rasterization r;
  rd_multisample := XclipseWrapper.OptimizeMultisampleState <$> rd_multisample r
|}.

(** The non-null rasterization / multisample state pointers of a batch. *)
Definition rasterization_targets
    (infos : list XclipseWrapper.VkGraphicsPipelineCreateInfo) : list Z :=
  filter (fun p => p <> 0) (XclipseWrapper.pRasterizationState <$> infos).

Definition multisample_targets
    (infos : list XclipseWrapper.VkGraphicsPipelineCreateInfo) : list Z :=
  filter (fun p => p <> 0) (XclipseWrapper.pMultisampleState <$> infos).

(** How often the handle [h] occurs in a list of handles. *)
Definition occurrences (h : Z) (l : list Z) : nat :=
  length (filter (fun p => p = h) l).

(** What every record of the map satisfies: it sits under its own handle,
    carries no stage flags, its counter is a 64-bit value, and a graphics
    record has been counted once. *)
Definition record_well_formed (h : Z) (st : XclipseWrapper.PipelineState) : Prop :=
  XclipseWrapper.pipeline st = h /\
  XclipseWrapper.shader_stages st = 0 /\
  0 <= XclipseWrapper.usage_count st < 2 ^ 64 /\
  (XclipseWrapper.bind_point st = VK_PIPELINE_BIND_POINT_GRAPHICS ->
   XclipseWrapper.usage_count st = 1).

(** The submissions a counted loop over [submits] visits, by index. *)
Definition visited_indices (count : nat) (submits : list XclipseWrapper.VkSubmitInfo)
    : list nat :=
  seq 0 (count `min` length submits).

(** ** Sample inputs

    A next link that answers every creation call with the status [r] and
    the output array [handles], every allocation with [r] and the handle
    [4096], and every submission with [r]. *)

Definition sample_properties : XclipseWrapper.VkPhysicalDeviceProperties := {|
  XclipseWrapper.apiVersion := VK_MAKE_API_VERSION 0 1 3 0;
  XclipseWrapper.driverVersion := 1;
  XclipseWrapper.vendorID := 5197;
  XclipseWrapper.deviceID := 940;
  XclipseWrapper.deviceType := 1;
  XclipseWrapper.deviceName := "Xclipse 940";
  XclipseWrapper.pipelineCacheUUID := [];
  XclipseWrapper.limits := [];
  XclipseWrapper.sparseProperties := []
|}.

Definition sample_memory_properties : XclipseWrapper.VkPhysicalDeviceMemoryProperties := {|
  XclipseWrapper.memoryTypeCount := 2;
  XclipseWrapper.memoryTypes :=
    [ {| XclipseWrapper.propertyFlags := 1; XclipseWrapper.heapIndex := 0 |};
      {| XclipseWrapper.propertyFlags := 6; XclipseWrapper.heapIndex := 0 |} ];
  XclipseWrapper.memoryHeapCount := 1;
  XclipseWrapper.memoryHeaps :=
    [ {| XclipseWrapper.heap_size := 8589934592; XclipseWrapper.heap_flags := 1 |} ]
|}.

Definition sample_next (r : VkResult) (handles : list Z) : XclipseWrapper.NextLayer := {|
  XclipseWrapper.next_vkGetPhysicalDeviceProperties := fun _ => sample_properties;
  XclipseWrapper.next_vkGetPhysicalDeviceMemoryProperties := fun _ => sample_memory_properties;
  XclipseWrapper.next_vkCreateGraphicsPipelines := fun _ => (r, handles);
  XclipseWrapper.next_vkCreateComputePipelines := fun _ => (r, handles);
  XclipseWrapper.next_vkAllocateMemory := fun _ => (r, 4096);
  XclipseWrapper.next_vkQueueSubmit := fun _ => r
|}.

(** The global wrapper after a successful [InitializeDeviceContext]. *)
Definition sample_initialized : XclipseWrapper.Xclipse940Wrapper :=
  (XclipseWrapper.InitializeDeviceContext (sample_next VK_SUCCESS []) 1 2
     XclipseWrapper.g_wrapper_initial).2.

Definition sample_memory : XclipseWrapper.Memory := {|
  XclipseWrapper.rasterization_states := ∅;
  XclipseWrapper.multisample_states := ∅
|}.

Definition sample_compute_info : XclipseWrapper.VkComputePipelineCreateInfo := {|
  XclipseWrapper.cci_sType := 29;
  XclipseWrapper.cci_pNext := 0;
  XclipseWrapper.cci_flags := 0;
  XclipseWrapper.stage :=
    {| XclipseWrapper.ssci_sType := 18; XclipseWrapper.ssci_pNext := 0;
       XclipseWrapper.ssci_flags := 0; XclipseWrapper.ssci_stage := 32;
       XclipseWrapper.module := 500; XclipseWrapper.pName := 600;
       XclipseWrapper.pSpecializationInfo := 0 |};
  XclipseWrapper.cci_layout := 700;
  XclipseWrapper.cci_basePipelineHandle := 0;
  XclipseWrapper.cci_basePipelineIndex := -1
|}.

Definition sample_graphics_info (pRast pMs : Z)
    : XclipseWrapper.VkGraphicsPipelineCreateInfo := {|
  XclipseWrapper.gci_sType := 28;
  XclipseWrapper.gci_pNext := 0;
  XclipseWrapper.gci_flags := 0;
  XclipseWrapper.stageCount := 2;
  XclipseWrapper.pStages := 800;
  XclipseWrapper.pVertexInputState := 801;
  XclipseWrapper.pInputAssemblyState := 802;
  XclipseWrapper.pTessellationState := 0;
  XclipseWrapper.pViewportState := 803;
  XclipseWrapper.pRasterizationState := pRast;
  XclipseWrapper.pMultisampleState := pMs;
  XclipseWrapper.pDepthStencilState := 0;
  XclipseWrapper.pColorBlendState := 804;
  XclipseWrapper.pDynamicState := 0;
  XclipseWrapper.gci_layout := 700;
  XclipseWrapper.renderPass := 900;
  XclipseWrapper.subpass := 0;
  XclipseWrapper.gci_basePipelineHandle := 0;
  XclipseWrapper.gci_basePipelineIndex := -1
|}.

Definition sample_allocate_info (size index : Z) : XclipseWrapper.VkMemoryAllocateInfo := {|
  XclipseWrapper.mai_sType := 5;
  XclipseWrapper.mai_pNext := 0;
  XclipseWrapper.allocationSize := size;
  XclipseWrapper.memoryTypeIndex := index
|}.

Definition sample_submit (buffers : Z) : XclipseWrapper.VkSubmitInfo := {|
  XclipseWrapper.si_sType := 4;
  XclipseWrapper.si_pNext := 0;
  XclipseWrapper.waitSemaphoreCount := 0;
  XclipseWrapper.pWaitSemaphores := 0;
  XclipseWrapper.pWaitDstStageMask := 0;
  XclipseWrapper.commandBufferCount := buffers;
  XclipseWrapper.pCommandBuffers := 1000;
  XclipseWrapper.signalSemaphoreCount := 0;
  XclipseWrapper.pSignalSemaphores := 0
|}.

Definition sample_rasterization (cull : Z)
    : XclipseWrapper.VkPipelineRasterizationStateCreateInfo := {|
  XclipseWrapper.rast_sType := 23;
  XclipseWrapper.rast_pNext := 0;
  XclipseWrapper.rast_flags := 0;
  XclipseWrapper.depthClampEnable := 1;
  XclipseWrapper.rasterizerDiscardEnable := 0;
  XclipseWrapper.polygonMode := 0;
  XclipseWrapper.cullMode := cull;
  XclipseWrapper.frontFace := 1;
  XclipseWrapper.depthBiasEnable := 1;
  XclipseWrapper.depthBiasConstantFactor := 1065353216;
  XclipseWrapper.depthBiasClamp := 0;
  XclipseWrapper.depthBiasSlopeFactor := 1065353216;
  XclipseWrapper.lineWidth := 1065353216
|}.

Definition sample_multisample (samples : Z)
    : XclipseWrapper.VkPipelineMultisampleStateCreateInfo := {|
  XclipseWrapper.ms_sType := 24;
  XclipseWrapper.ms_pNext := 0;
  XclipseWrapper.ms_flags := 0;
  XclipseWrapper.rasterizationSamples := samples;
  XclipseWrapper.sampleShadingEnable := 0;
  XclipseWrapper.minSampleShading := 0;
  XclipseWrapper.pSampleMask := 0;
  XclipseWrapper.alphaToCoverageEnable := 0;
  XclipseWrapper.alphaToOneEnable := 0
|}.

(** Caller memory with one rasterization state at address 810 (no culling)
    and one multisample state at address 820 (8 samples). *)
Definition sample_shared_memory : XclipseWrapper.Memory := {|
  XclipseWrapper.rasterization_states := {[ 810 := sample_rasterization VK_CULL_MODE_NONE ]};
  XclipseWrapper.multisample_states := {[ 820 := sample_multisample 8 ]}
|}.

(** * Properties *)

Import LayerInit XclipseWrapper.

(** ** C strings and [strcmp] *)

Lemma uchar_inj (c d : ascii) : uchar c = uchar d -> c = d.
Proof.
  unfold uchar. intros H. apply Nat2Z.inj in H.
  rewrite <- (ascii_nat_embedding c), <- (ascii_nat_embedding d). by f_equal.
Qed.

Lemma uchar_zero (c : ascii) : uchar c = 0 <-> c = NUL.
Proof.
  split.
  - intros H. apply uchar_inj. by rewrite H.
  - by intros ->.
Qed.

Lemma c_str_cons (c : ascii) (r : string) :
  c_str (String c r) = if Ascii.eqb c NUL then EmptyString else String c (c_str r).
Proof. reflexivity. Qed.

(** [strcmp] answers [0] exactly when the two C strings are the same
    sequence of characters. *)
Lemma strcmp_zero (s1 s2 : string) : strcmp s1 s2 = 0 <-> c_str s1 = c_str s2.
Proof.
  revert s2. induction s1 as [|c1 r1 IH]; intros [|c2 r2].
  - done.
  - rewrite c_str_cons. cbn [strcmp c_str].
    destruct (Ascii.eqb_spec c2 NUL) as [->|Hn].
    + done.
    + split; [|done]. intros H. exfalso. apply Hn, uchar_zero. lia.
  - rewrite c_str_cons. cbn [strcmp c_str].
    destruct (Ascii.eqb_spec c1 NUL) as [->|Hn].
    + done.
    + split; [|done]. intros H. exfalso. by apply Hn, uchar_zero.
  - rewrite !c_str_cons. cbn [strcmp].
    destruct (Ascii.eqb_spec c1 c2) as [->|Hne].
    + destruct (Ascii.eqb_spec c2 NUL) as [->|Hn]; [done|].
      rewrite IH. split; [by intros ->|]. by intros [= ->].
    + split.
      * intros H. exfalso. apply Hne, uchar_inj. lia.
      * destruct (Ascii.eqb_spec c1 NUL) as [->|Hn1],
                 (Ascii.eqb_spec c2 NUL) as [->|Hn2]; try done.
        by intros [= -> _].
Qed.

Lemma strcmp_eqb (s name : string) :
  c_str name = name -> (strcmp s name =? 0) = bool_decide (c_str s = name).
Proof.
  intros Hname. destruct (Z.eqb_spec (strcmp s name) 0) as [H|H].
  - symmetry. apply bool_decide_eq_true. apply strcmp_zero in H. congruence.
  - symmetry. apply bool_decide_eq_false. intros Heq. apply H, strcmp_zero. congruence.
Qed.

(** ** Proc-address resolution (layer_init.cpp) *)

Lemma allow_list_c_str (name : string) (f : Intercepted) :
  (name, f) ∈ allow_list -> c_str name = name.
Proof.
  unfold allow_list. rewrite !elem_of_cons, elem_of_nil.
  intros [[= -> _]|[[= -> _]|[[= -> _]|[[= -> _]|[]]]]]; reflexivity.
Qed.

Lemma vkGetInstanceProcAddr_chain g instance pName :
  vkGetInstanceProcAddr g instance pName =
  resolve_with (forward_lookup (get_instance_proc_addr g) instance pName) pName.
Proof.
  unfold vkGetInstanceProcAddr, resolve_with, forward_lookup.
  by rewrite !strcmp_eqb.
Qed.

Lemma vkGetDeviceProcAddr_chain g device pName :
  vkGetDeviceProcAddr g device pName =
  resolve_with (forward_lookup (get_device_proc_addr g) device pName) pName.
Proof.
  unfold vkGetDeviceProcAddr, resolve_with, forward_lookup.
  by rewrite !strcmp_eqb.
Qed.

Lemma resolve_with_listed fallback pName f :
  (c_str pName, f) ∈ allow_list -> resolve_with fallback pName = layer_entry f.
Proof.
  unfold allow_list, resolve_with. rewrite !elem_of_cons, elem_of_nil.
  intros [[= -> ->]|[[= -> ->]|[[= -> ->]|[[= -> ->]|[]]]]]; reflexivity.
Qed.

Lemma resolve_with_unlisted fallback pName :
  c_str pName ∉ allow_names -> resolve_with fallback pName = fallback.
Proof.
  unfold allow_names, allow_list, resolve_with. cbn [fmap list_fmap fst].
  rewrite !not_elem_of_cons. intros (H1 & H2 & H3 & H4 & _).
  by rewrite !bool_decide_eq_false_2.
Qed.

Lemma allow_names_listed name :
  name ∈ allow_names <-> exists f, (name, f) ∈ allow_list.
Proof.
  unfold allow_names. rewrite list_elem_of_fmap. split.
  - intros [[n f] [-> H]]. by exists f.
  - intros [f H]. by exists (name, f).
Qed.

Lemma resolve_with_layer_entry p pName :
  (exists f, resolve_with (foreign p) pName = layer_entry f) <-> c_str pName ∈ allow_names.
Proof.
  split.
  - intros [f Hf]. destruct (decide (c_str pName ∈ allow_names)) as [|Hn]; [done|].
    by rewrite resolve_with_unlisted in Hf.
  - intros [f Hf]%allow_names_listed. exists f. by apply resolve_with_listed.
Qed.

(** C5.  Instance-level and device-level resolution hand out the layer's
    own wrapper exactly for a name that is, character for character, one of
    the four names of the allow-list, whatever resolver of the next link is
    registered; for any other name they hand out what the next link's
    resolver answers for that handle and name, and null when none is
    registered. *)
Theorem proc_resolution (g : LayerData) (handle : Z) (pName : string) :
  (forall f, (c_str pName, f) ∈ allow_list ->
     vkGetInstanceProcAddr g handle pName = layer_entry f /\
     vkGetDeviceProcAddr g handle pName = layer_entry f) /\
  ((exists f, vkGetInstanceProcAddr g handle pName = layer_entry f)
     <-> c_str pName ∈ allow_names) /\
  ((exists f, vkGetDeviceProcAddr g handle pName = layer_entry f)
     <-> c_str pName ∈ allow_names) /\
  (c_str pName ∉ allow_names ->
     vkGetInstanceProcAddr g handle pName =
       match get_instance_proc_addr g with
       | Some next => foreign (next handle pName)
       | None => nullptr
       end /\
     vkGetDeviceProcAddr g handle pName =
       match get_device_proc_addr g with
       | Some next => foreign (next handle pName)
       | None => nullptr
       end).
Proof.
  rewrite vkGetInstanceProcAddr_chain, vkGetDeviceProcAddr_chain.
  split; [|split; [|split]].
  - intros f Hf. by rewrite !(resolve_with_listed _ _ f Hf).
  - unfold forward_lookup, nullptr.
    destruct (get_instance_proc_addr g); apply resolve_with_layer_entry.
  - unfold forward_lookup, nullptr.
    destruct (get_device_proc_addr g); apply resolve_with_layer_entry.
  - intros Hn. by rewrite !resolve_with_unlisted.
Qed.

Lemma proc_resolution_witness :
  vkGetInstanceProcAddr
    {| get_instance_proc_addr := None; get_device_proc_addr := None |}
    0 "vkQueueSubmit" = layer_entry vkQueueSubmit /\
  vkGetDeviceProcAddr
    {| get_instance_proc_addr := None;
       get_device_proc_addr := Some (fun device _ => device + 1) |}
    41 "vkqueuesubmit" = foreign 42.
Proof.
  split.
  - apply (proj1 (proc_resolution
                    {| get_instance_proc_addr := None; get_device_proc_addr := None |}
                    0 "vkQueueSubmit")).
    unfold allow_list. cbn [c_str Ascii.eqb Bool.eqb NUL Ascii.zero].
    rewrite !elem_of_cons. right. right. by left.
  - apply (proj2 (proj2 (proj2 (proc_resolution
                    {| get_instance_proc_addr := None;
                       get_device_proc_addr := Some (fun device _ => device + 1) |}
                    41 "vkqueuesubmit")))).
    unfold allow_names, allow_list. cbn.
    rewrite !not_elem_of_cons. repeat split; try discriminate.
    apply not_elem_of_nil.
Defined.

(** ** Layer enumeration (layer_init.cpp) *)

Lemma enumerate_success pPropertyCount pProperties :
  enum_result (vkEnumerateInstanceLayerProperties pPropertyCount pProperties)
  = VK_SUCCESS.
Proof. reflexivity. Qed.

(** A count-only query: the count becomes 1 and nothing is stored. *)
Lemma enumerate_count_only (declared : Z) :
  vkEnumerateInstanceLayerProperties (Some declared) 0
  = {| enum_result := VK_SUCCESS; enum_count := Some 1; enum_stores := [] |}.
Proof. reflexivity. Qed.

(** With a buffer and a count pointer the record is stored at index 0,
    whatever capacity the caller declared: the count cell has been set to 1
    before the capacity test reads it. *)
Lemma enumerate_with_buffer (declared pProperties : Z) :
  pProperties <> 0 ->
  vkEnumerateInstanceLayerProperties (Some declared) pProperties
  = {| enum_result := VK_SUCCESS; enum_count := Some 1;
       enum_stores := [(0%nat, layer_properties)] |}.
Proof.
  intros Hp. unfold vkEnumerateInstanceLayerProperties.
  by destruct (Z.eqb_spec pProperties 0).
Qed.

Lemma enumerate_null_count (pProperties : Z) :
  vkEnumerateInstanceLayerProperties None pProperties
  = {| enum_result := VK_SUCCESS; enum_count := None; enum_stores := [] |}.
Proof.
  unfold vkEnumerateInstanceLayerProperties. by rewrite andb_false_r.
Qed.

(** C1.  A query with a buffer at address 4096 and a declared capacity of 0
    returns success, sets the count to 1 and stores the identity record
    into element 0 of the buffer, past the declared capacity; the claim has
    nothing stored there. *)
Theorem enumerate_capacity_zero_stores_record :
  let out := vkEnumerateInstanceLayerProperties (Some 0) 4096 in
  enum_result out = VK_SUCCESS /\
  enum_count out = Some 1 /\
  enum_stores out = [(0%nat, layer_properties)] /\
  enum_stores out <> [].
Proof. cbn. by repeat split. Qed.

(** ** Loader negotiation (xclipse_wrapper.cpp) *)

(** C6.  A record whose type tag is not the negotiation tag is answered
    with [VK_ERROR_INITIALIZATION_FAILED] and left as it was.  With the
    right tag the call succeeds and the version field reads 2 afterwards;
    if the requested version was at least 2 the instance and device
    resolver slots hold the layer's resolvers and the physical-device slot
    is null, otherwise the three slots keep what they held. *)
Theorem negotiate_contract (s : VkNegotiateLayerInterface) :
  (sType s <> LAYER_NEGOTIATE_INTERFACE_STRUCT ->
     vkNegotiateLoaderLayerInterfaceVersion s = (VK_ERROR_INITIALIZATION_FAILED, s)) /\
  (sType s = LAYER_NEGOTIATE_INTERFACE_STRUCT ->
     let out := vkNegotiateLoaderLayerInterfaceVersion s in
     out.1 = VK_SUCCESS /\
     loaderLayerInterfaceVersion out.2 = 2 /\
     sType out.2 = sType s /\ pNext out.2 = pNext s /\
     (2 <= loaderLayerInterfaceVersion s ->
        pfnGetInstanceProcAddr out.2 = slot_vkGetInstanceProcAddr /\
        pfnGetDeviceProcAddr out.2 = slot_vkGetDeviceProcAddr /\
        pfnGetPhysicalDeviceProcAddr out.2 = slot_nullptr) /\
     (loaderLayerInterfaceVersion s < 2 ->
        pfnGetInstanceProcAddr out.2 = pfnGetInstanceProcAddr s /\
        pfnGetDeviceProcAddr out.2 = pfnGetDeviceProcAddr s /\
        pfnGetPhysicalDeviceProcAddr out.2 = pfnGetPhysicalDeviceProcAddr s)).
Proof.
  unfold vkNegotiateLoaderLayerInterfaceVersion. split.
  - intros Htag. by destruct (Z.eqb_spec (sType s) LAYER_NEGOTIATE_INTERFACE_STRUCT).
  - intros Htag. rewrite Htag, Z.eqb_refl. cbn [negb].
    destruct (Z.leb_spec 2 (loaderLayerInterfaceVersion s)); cbn;
      repeat split; try done; lia.
Qed.

Lemma negotiate_contract_witness :
  vkNegotiateLoaderLayerInterfaceVersion
    {| sType := 0; pNext := 0; loaderLayerInterfaceVersion := 2;
       pfnGetInstanceProcAddr := slot_other 7; pfnGetDeviceProcAddr := slot_other 8;
       pfnGetPhysicalDeviceProcAddr := slot_other 9 |}
  = (VK_ERROR_INITIALIZATION_FAILED,
     {| sType := 0; pNext := 0; loaderLayerInterfaceVersion := 2;
        pfnGetInstanceProcAddr := slot_other 7; pfnGetDeviceProcAddr := slot_other 8;
        pfnGetPhysicalDeviceProcAddr := slot_other 9 |}) /\
  pfnGetPhysicalDeviceProcAddr
    (vkNegotiateLoaderLayerInterfaceVersion
       {| sType := 1; pNext := 0; loaderLayerInterfaceVersion := 5;
          pfnGetInstanceProcAddr := slot_other 7; pfnGetDeviceProcAddr := slot_other 8;
          pfnGetPhysicalDeviceProcAddr := slot_other 9 |}).2 = slot_nullptr.
Proof.
  split.
  - apply (proj1 (negotiate_contract
                    {| sType := 0; pNext := 0; loaderLayerInterfaceVersion := 2;
                       pfnGetInstanceProcAddr := slot_other 7;
                       pfnGetDeviceProcAddr := slot_other 8;
                       pfnGetPhysicalDeviceProcAddr := slot_other 9 |})).
    cbn. discriminate.
  - apply (proj2 (negotiate_contract
                    {| sType := 1; pNext := 0; loaderLayerInterfaceVersion := 5;
                       pfnGetInstanceProcAddr := slot_other 7;
                       pfnGetDeviceProcAddr := slot_other 8;
                       pfnGetPhysicalDeviceProcAddr := slot_other 9 |})).
    + reflexivity.
    + cbn. lia.
Defined.

(** ** Counted loops *)

(** A counted loop visits the first [count] elements of the array, in
    order. *)
Lemma for_each_take {A S : Type} (count : nat) (arr : list A)
    (body : A -> S -> S) (s : S) :
  for_each count arr body s = foldl (fun acc a => body a acc) s (take count arr).
Proof.
  unfold for_each. induction count as [|n IH].
  - by rewrite take_0.
  - rewrite seq_S, foldl_app. cbn [foldl Nat.add]. rewrite IH.
    destruct (arr !! n) as [x|] eqn:Hx.
    + by rewrite (take_S_r _ _ _ Hx), foldl_app.
    + apply lookup_ge_None in Hx. rewrite !take_ge by lia. done.
Qed.

(** ** Queue submission (xclipse_wrapper.cpp) *)

Lemma classify_submit_total (e : nat * VkSubmitInfo) (c : SubmissionClasses) :
  let c' := classify_submit e c in
  (length (compute_submits c') + length (graphics_submits c')
   + length (transfer_submits c')
   = S (length (compute_submits c) + length (graphics_submits c)
        + length (transfer_submits c)))%nat.
Proof.
  destruct e as [i submit]. unfold classify_submit.
  destruct (IsLikelyComputeWorkload submit), (IsLikelyTransferWorkload submit);
    cbn; rewrite length_app; cbn; lia.
Qed.

(** Every visited submission lands in exactly one of the three vectors. *)
Lemma OptimizeQueueSubmission_total (submits : list VkSubmitInfo) (count : nat) :
  let c := OptimizeQueueSubmission submits count in
  (length (compute_submits c) + length (graphics_submits c)
   + length (transfer_submits c) = length (take count submits))%nat.
Proof.
  unfold OptimizeQueueSubmission. rewrite for_each_take.
  set (entries := take count (imap (fun i s => (i, s)) submits)).
  assert (Hlen : length entries = length (take count submits)).
  { unfold entries. by rewrite !length_take, length_imap. }
  rewrite <- Hlen. clear Hlen.
  set (c0 := {| compute_submits := []; graphics_submits := []; transfer_submits := [] |}).
  change (length entries)
    with (length (compute_submits c0) + length (graphics_submits c0)
          + length (transfer_submits c0) + length entries)%nat.
  generalize c0. induction entries as [|e entries IH]; intros c; cbn [foldl length].
  - lia.
  - rewrite IH. pose proof (classify_submit_total e c) as H. cbn zeta in H. lia.
Qed.

(** ** Memory allocation (xclipse_wrapper.cpp) *)

Lemma cache_line_mask_value : cache_line_mask = 4294967232.
Proof. reflexivity. Qed.

Lemma cache_line_mask_bits (n : Z) :
  0 <= n -> Z.testbit cache_line_mask n = (6 <=? n) && (n <? 32).
Proof.
  intros Hn. rewrite cache_line_mask_value.
  change 4294967232 with (Z.shiftl (Z.ones 26) 6).
  rewrite Z.shiftl_spec by done.
  destruct (Z.leb_spec 6 n) as [H6|H6]; cbn [andb].
  - rewrite Z.testbit_ones by lia.
    destruct (Z.ltb_spec n 32), (Z.leb_spec 0 (n - 6)), (Z.ltb_spec (n - 6) 26);
      cbn; lia.
  - apply Z.testbit_neg_r. lia.
Qed.

(** The size written by [OptimizeMemoryAllocation]: the sum is taken on 64
    bits, then only bits 6..31 survive the mask. *)
Lemma OptimizeMemoryAllocation_size ctx info :
  allocationSize (OptimizeMemoryAllocation ctx info)
  = wrap32 (wrap64 (allocationSize info + 63)) / 64 * 64.
Proof.
  assert (Hsz : forall x,
    Z.land (wrap64 (wrap64 (x + kCacheLineSize) - 1)) cache_line_mask
    = wrap32 (wrap64 (x + 63)) / 64 * 64).
  { intros x. unfold wrap64, wrap32, kCacheLineSize.
    replace ((x + 64) mod 2 ^ 64 - 1) with ((x + 64) mod 2 ^ 64 + (-1)) by lia.
    rewrite Zplus_mod_idemp_l. replace (x + 64 + -1) with (x + 63) by lia.
    set (y := (x + 63) mod 2 ^ 64).
    rewrite <- (Z.shiftr_div_pow2 _ 6), <- (Z.shiftl_mul_pow2 _ 6) by lia.
    apply Z.bits_inj'. intros n Hn.
    rewrite Z.land_spec, cache_line_mask_bits by done.
    destruct (Z.leb_spec 6 n) as [H6|H6].
    - rewrite Z.shiftl_spec, Z.shiftr_spec by lia.
      replace (n - 6 + 6) with n by lia.
      destruct (Z.ltb_spec n 32) as [H32|H32]; cbn [andb].
      + rewrite Z.mod_pow2_bits_low by lia. by rewrite andb_true_r.
      + rewrite Z.mod_pow2_bits_high by lia. by rewrite andb_false_r.
    - cbn [andb]. rewrite andb_false_r, Z.shiftl_spec by done.
      symmetry. apply Z.testbit_neg_r. lia. }
  unfold OptimizeMemoryAllocation.
  destruct ctx as [ctx|]; [|apply Hsz].
  destruct (_ <? _); [|apply Hsz].
  destruct (_ !! _); [|apply Hsz].
  destruct (negb _); apply Hsz.
Qed.

Lemma OptimizeMemoryAllocation_memoryTypeIndex ctx info :
  memoryTypeIndex (OptimizeMemoryAllocation ctx info) = memoryTypeIndex info.
Proof.
  unfold OptimizeMemoryAllocation.
  destruct ctx as [ctx|]; [|done].
  destruct (_ <? _); [|done]. destruct (_ !! _); [|done]. by destruct (negb _).
Qed.

(** Up to [2^32 - 64] the rounding is the intended one. *)
Lemma OptimizeMemoryAllocation_rounds_small ctx info :
  0 <= allocationSize info <= 2 ^ 32 - 64 ->
  smallest_multiple_ge kCacheLineSize (allocationSize info)
    (allocationSize (OptimizeMemoryAllocation ctx info)).
Proof.
  intros Hs. rewrite OptimizeMemoryAllocation_size.
  unfold wrap32, wrap64, kCacheLineSize.
  rewrite (Z.mod_small (_ + 63)) by lia. rewrite Z.mod_small by lia.
  set (S := allocationSize info) in *.
  pose proof (Z.div_mod (S + 63) 64 ltac:(lia)) as Hdm.
  pose proof (Z.mod_pos_bound (S + 63) 64 ltac:(lia)) as Hb.
  split; [|split].
  - exists ((S + 63) / 64). lia.
  - lia.
  - intros r' [k ->] Hr'. nia.
Qed.

(** From [2^32 - 63] on, the 32-bit mask cuts the high half of the size
    off: the forwarded size is below [2^32], hence below the request. *)
Lemma OptimizeMemoryAllocation_truncates ctx info :
  2 ^ 32 <= allocationSize info ->
  allocationSize (OptimizeMemoryAllocation ctx info) < allocationSize info.
Proof.
  intros Hs. rewrite OptimizeMemoryAllocation_size. unfold wrap32.
  pose proof (Z.mod_pos_bound (wrap64 (allocationSize info + 63)) (2 ^ 32) ltac:(lia)) as Hb.
  pose proof (Z.div_mod (wrap64 (allocationSize info + 63) mod 2 ^ 32) 64 ltac:(lia)) as Hdm.
  pose proof (Z.mod_pos_bound (wrap64 (allocationSize info + 63) mod 2 ^ 32) 64 ltac:(lia)).
  lia.
Qed.

(** ** The record map (xclipse_wrapper.cpp) *)

Lemma CachePipelines_fold pipelines count bp w :
  CachePipelines pipelines count bp w
  = set_pipeline_cache_
      (foldl (fun m p => <[p := created_state bp 1 p]> m) (pipeline_cache_ w)
             (batch_handles count pipelines)) w.
Proof.
  unfold CachePipelines, batch_handles. rewrite for_each_take.
  generalize (take count pipelines). intros l. revert w.
  induction l as [|p l IH]; intros w; cbn [foldl].
  - by destruct w.
  - rewrite IH. by destruct w.
Qed.

Lemma insert_batch_lookup bp (l : list Z) (m : gmap Z PipelineState) (h : Z) :
  foldl (fun m p => <[p := created_state bp 1 p]> m) m l !! h
  = if decide (h ∈ l) then Some (created_state bp 1 h) else m !! h.
Proof.
  revert m. induction l as [|p l IH]; intros m; cbn [foldl].
  - rewrite decide_False; [done|]. apply not_elem_of_nil.
  - rewrite IH. destruct (decide (h ∈ l)) as [Hl|Hl].
    + rewrite decide_True; [done|]. by apply list_elem_of_further.
    + destruct (decide (p = h)) as [->|Hne].
      * rewrite lookup_insert_eq, decide_True; [done|]. apply list_elem_of_here.
      * rewrite lookup_insert_ne by done. rewrite decide_False; [done|].
        rewrite elem_of_cons. intros [->|?]; done.
Qed.

(** After [CachePipelines], every handle of the batch has a fresh record
    and every other handle has what it had. *)
Lemma CachePipelines_lookup pipelines count bp w h :
  pipeline_cache_ (CachePipelines pipelines count bp w) !! h
  = if decide (h ∈ batch_handles count pipelines)
    then Some (created_state bp 1 h)
    else pipeline_cache_ w !! h.
Proof. rewrite CachePipelines_fold. apply insert_batch_lookup. Qed.

Lemma CachePipelines_frame pipelines count bp w :
  device_context_ (CachePipelines pipelines count bp w) = device_context_ w /\
  features_initialized_ (CachePipelines pipelines count bp w) = features_initialized_ w.
Proof. by rewrite CachePipelines_fold. Qed.

Lemma OptimizeComputePipeline_alter p w :
  OptimizeComputePipeline p w
  = set_pipeline_cache_ (alter bump_usage p (pipeline_cache_ w)) w.
Proof.
  unfold OptimizeComputePipeline. destruct (pipeline_cache_ w !! p) as [st|] eqn:Hp.
  - f_equal. apply map_eq. intros j. rewrite lookup_alter, lookup_insert.
    case_decide; [subst; by rewrite Hp|done].
  - rewrite alter_id'; [by destruct w|done].
Qed.

Lemma post_pass_fold (l : list Z) w :
  foldl (fun acc p => OptimizeComputePipeline p acc) w l
  = set_pipeline_cache_
      (foldl (fun m p => alter bump_usage p m) (pipeline_cache_ w) l) w.
Proof.
  revert w. induction l as [|p l IH]; intros w; cbn [foldl].
  - by destruct w.
  - rewrite IH, OptimizeComputePipeline_alter. by destruct w.
Qed.

(** The post-pass over a batch without repeated handles bumps the record
    of each handle of the batch once and touches no other record. *)
Lemma post_pass_lookup (l : list Z) (m : gmap Z PipelineState) (h : Z) :
  NoDup l ->
  foldl (fun m p => alter bump_usage p m) m l !! h
  = if decide (h ∈ l) then bump_usage <$> m !! h else m !! h.
Proof.
  intros Hnd. revert m. induction Hnd as [|p l Hp Hnd IH]; intros m; cbn [foldl].
  - rewrite decide_False; [done|]. apply not_elem_of_nil.
  - rewrite IH. destruct (decide (h ∈ l)) as [Hl|Hl].
    + rewrite decide_True by (by apply list_elem_of_further).
      rewrite lookup_alter_ne; [done|]. by intros ->.
    + destruct (decide (p = h)) as [->|Hne].
      * rewrite lookup_alter_eq, decide_True; [done|]. apply list_elem_of_here.
      * rewrite lookup_alter_ne by done. rewrite decide_False; [done|].
        rewrite elem_of_cons. intros [->|?]; done.
Qed.

(** The post-pass never adds or removes a record. *)
Lemma post_pass_dom (l : list Z) (m : gmap Z PipelineState) :
  dom (foldl (fun m p => alter bump_usage p m) m l) = dom m.
Proof.
  revert m. induction l as [|p l IH]; intros m; cbn [foldl]; [done|].
  rewrite IH. apply dom_alter_L.
Qed.

Lemma insert_batch_dom bp (l : list Z) (m : gmap Z PipelineState) :
  dom (foldl (fun m p => <[p := created_state bp 1 p]> m) m l)
  = dom m ∪ list_to_set l.
Proof.
  revert m. induction l as [|p l IH]; intros m; cbn [foldl].
  - set_solver.
  - rewrite IH, dom_insert_L. set_solver.
Qed.

Lemma CachePipelines_dom pipelines count bp w :
  dom (pipeline_cache_ (CachePipelines pipelines count bp w))
  = dom (pipeline_cache_ w) ∪ list_to_set (batch_handles count pipelines).
Proof. rewrite CachePipelines_fold. apply insert_batch_dom. Qed.

Lemma step_frame_key (w : Xclipse940Wrapper) (c : Call) (h : Z) (st : PipelineState) :
  (forall k s, pipeline_cache_ w !! k = Some s -> pipeline s = k) ->
  pipeline_cache_ (step w c) !! h = Some st -> pipeline st = h.
Proof.
  intros Hinv. destruct c; cbn [step].
  - unfold InitializeDeviceContext. destruct (_ || _); cbn; apply Hinv.
  - unfold CreateGraphicsPipelines. destruct (features_initialized_ w); cbn [negb].
    + destruct (for_each _ _ _ _) as [m' i'].
      destruct (next_vkCreateGraphicsPipelines _ _) as [r p]. cbn [wrapper].
      destruct (r =? VK_SUCCESS); [|apply Hinv].
      rewrite CachePipelines_lookup. case_decide; [by intros [= <-]|apply Hinv].
    + destruct (next_vkCreateGraphicsPipelines _ _) as [r p]. apply Hinv.
  - unfold CreateComputePipelines.
    destruct (next_vkCreateComputePipelines _ _) as [r p]. cbn [wrapper].
    destruct (_ && _); [|apply Hinv].
    rewrite for_each_take, post_pass_fold. cbn [pipeline_cache_ set_pipeline_cache_].
    revert h st. generalize (take createInfoCount p). intros l.
    induction l as [|q l IH] using rev_ind; intros h st; cbn [foldl].
    + rewrite CachePipelines_lookup. case_decide; [by intros [= <-]|apply Hinv].
    + rewrite foldl_app. cbn [foldl]. rewrite lookup_alter.
      case_decide as Hq; [|apply IH]. subst q.
      destruct (foldl _ _ l !! h) as [s|] eqn:Hs; [|done].
      cbn. intros [= <-]. cbn. by apply IH.
  - unfold AllocateMemory. destruct (features_initialized_ w); cbn [negb];
      destruct (next_vkAllocateMemory _ _); apply Hinv.
  - apply Hinv.
Qed.

(** Every record sits under its own handle, after any sequence of calls. *)
Lemma run_frame_key (calls : list Call) (h : Z) (st : PipelineState) :
  pipeline_cache_ (run calls g_wrapper_initial) !! h = Some st -> pipeline st = h.
Proof.
  revert h st. unfold run.
  induction calls as [|c calls IH] using rev_ind; intros h st.
  - cbn. by rewrite lookup_empty.
  - rewrite foldl_app. cbn [foldl]. apply step_frame_key. apply IH.
Qed.

(** C10.  The record map has one record per handle: after any sequence of
    calls no handle occurs twice among its entries and every record sits
    under its own handle.  Caching a batch with a handle that already has a
    record replaces that record by a fresh one (usage counter 1, the bind
    point of the new batch), and a batch of handles that all have records
    leaves the number of records as it was.  The post-pass increment on a
    handle without a record leaves the wrapper as it was. *)
Theorem record_map_one_record_per_handle (calls : list Call) (pipelines : list Z)
    (count : nat) (bp : VkPipelineBindPoint) (w : Xclipse940Wrapper) (h : Z) :
  NoDup (map_to_list (pipeline_cache_ (run calls g_wrapper_initial))).*1 /\
  (forall st, pipeline_cache_ (run calls g_wrapper_initial) !! h = Some st ->
              pipeline st = h) /\
  (h ∈ batch_handles count pipelines -> is_Some (pipeline_cache_ w !! h) ->
   pipeline_cache_ (CachePipelines pipelines count bp w) !! h
   = Some (created_state bp 1 h)) /\
  ((forall p, p ∈ batch_handles count pipelines -> is_Some (pipeline_cache_ w !! p)) ->
   size (pipeline_cache_ (CachePipelines pipelines count bp w))
   = size (pipeline_cache_ w)) /\
  (pipeline_cache_ w !! h = None -> OptimizeComputePipeline h w = w).
Proof.
  split; [apply NoDup_fst_map_to_list|].
  split; [intros st; apply run_frame_key|].
  split; [|split].
  - intros Hin _. rewrite CachePipelines_lookup. by rewrite decide_True.
  - intros Hall. rewrite <- !size_dom, CachePipelines_dom. f_equal.
    apply set_eq. intros p. rewrite elem_of_union, elem_of_list_to_set, elem_of_dom.
    naive_solver.
  - intros Hnone. unfold OptimizeComputePipeline. by rewrite Hnone.
Qed.

Lemma record_map_one_record_per_handle_witness :
  pipeline_cache_
    (CachePipelines [7] 1 VK_PIPELINE_BIND_POINT_GRAPHICS
       (CachePipelines [7; 8] 2 VK_PIPELINE_BIND_POINT_COMPUTE sample_initialized)) !! 7
  = Some (created_state VK_PIPELINE_BIND_POINT_GRAPHICS 1 7) /\
  OptimizeComputePipeline 9 sample_initialized = sample_initialized.
Proof.
  split.
  - apply (proj1 (proj2 (proj2 (record_map_one_record_per_handle
                    [] [7] 1 VK_PIPELINE_BIND_POINT_GRAPHICS
                    (CachePipelines [7; 8] 2 VK_PIPELINE_BIND_POINT_COMPUTE
                       sample_initialized) 7)))).
    + cbn. apply list_elem_of_here.
    + rewrite CachePipelines_lookup. rewrite decide_True; [done|].
      cbn. apply list_elem_of_here.
  - apply (proj2 (proj2 (proj2 (proj2 (record_map_one_record_per_handle
                    [] [] 0 VK_PIPELINE_BIND_POINT_GRAPHICS sample_initialized 9))))).
    reflexivity.
Defined.

(** ** The wrapper after a creation call *)

Lemma CreateGraphicsPipelines_wrapper next w mem d pc n infos a :
  let g := CreateGraphicsPipelines next w mem d pc n infos a in
  wrapper g = if features_initialized_ w && (returned g =? VK_SUCCESS)
              then CachePipelines (output g) n VK_PIPELINE_BIND_POINT_GRAPHICS w
              else w.
Proof.
  cbn zeta. unfold CreateGraphicsPipelines.
  destruct (features_initialized_ w); cbn [negb andb].
  - destruct (for_each _ _ _ _) as [m' i'].
    by destruct (next_vkCreateGraphicsPipelines _ _) as [r p].
  - by destruct (next_vkCreateGraphicsPipelines _ _) as [r p].
Qed.

Lemma CreateComputePipelines_wrapper next w d pc n infos a :
  let c := CreateComputePipelines next w d pc n infos a in
  wrapper c = if features_initialized_ w && (returned c =? VK_SUCCESS)
              then foldl (fun acc p => OptimizeComputePipeline p acc)
                     (CachePipelines (output c) n VK_PIPELINE_BIND_POINT_COMPUTE w)
                     (batch_handles n (output c))
              else w.
Proof.
  cbn zeta. unfold CreateComputePipelines.
  destruct (next_vkCreateComputePipelines _ _) as [r p]. cbn [wrapper returned output].
  rewrite (andb_comm (features_initialized_ w)).
  destruct (_ && _); [|done]. by rewrite for_each_take.
Qed.

Lemma bump_created_state bp h :
  bump_usage (created_state bp 1 h) = created_state bp 2 h.
Proof. reflexivity. Qed.

(** ** The descriptor transformation (xclipse_wrapper.cpp) *)

(** What [OptimizeRasterizationState] writes, field by field. *)
Lemma OptimizeRasterizationState_fields (s : VkPipelineRasterizationStateCreateInfo) :
  OptimizeRasterizationState s
  = {| rast_sType := rast_sType s; rast_pNext := rast_pNext s;
       rast_flags := rast_flags s;
       depthClampEnable := VK_FALSE;
       rasterizerDiscardEnable := VK_FALSE;
       polygonMode := polygonMode s;
       cullMode := if cullMode s =? VK_CULL_MODE_NONE
                   then VK_CULL_MODE_BACK_BIT else cullMode s;
       frontFace := frontFace s;
       depthBiasEnable := VK_FALSE;
       depthBiasConstantFactor := depthBiasConstantFactor s;
       depthBiasClamp := depthBiasClamp s;
       depthBiasSlopeFactor := depthBiasSlopeFactor s;
       lineWidth := lineWidth s |}.
Proof.
  unfold OptimizeRasterizationState. cbn.
  by destruct (cullMode s =? VK_CULL_MODE_NONE).
Qed.

(** What [OptimizeMultisampleState] writes: the sample count becomes the
    smaller of itself and 4 (so 1 stays 1), nothing else changes. *)
Lemma OptimizeMultisampleState_fields (s : VkPipelineMultisampleStateCreateInfo) :
  OptimizeMultisampleState s
  = set_rasterizationSamples (Z.min (rasterizationSamples s) VK_SAMPLE_COUNT_4_BIT) s.
Proof.
  unfold OptimizeMultisampleState.
  destruct (Z.eqb_spec (rasterizationSamples s) VK_SAMPLE_COUNT_1_BIT) as [H|H]; [|done].
  rewrite H. by destruct s; cbn in *; subst.
Qed.

Lemma OptimizeRasterizationState_idem s :
  OptimizeRasterizationState (OptimizeRasterizationState s) = OptimizeRasterizationState s.
Proof.
  rewrite !OptimizeRasterizationState_fields. cbn.
  destruct (Z.eqb_spec (cullMode s) VK_CULL_MODE_NONE) as [H|H]; cbn; [done|].
  by destruct (Z.eqb_spec (cullMode s) VK_CULL_MODE_NONE).
Qed.

Lemma OptimizeMultisampleState_idem s :
  OptimizeMultisampleState (OptimizeMultisampleState s) = OptimizeMultisampleState s.
Proof.
  rewrite !OptimizeMultisampleState_fields. unfold set_rasterizationSamples. cbn.
  f_equal. unfold VK_SAMPLE_COUNT_4_BIT. lia.
Qed.

Lemma elem_of_targets (p : Z) (ps : list Z) :
  p ∈ filter (fun q => q <> 0) ps <-> p <> 0 /\ p ∈ ps.
Proof. by rewrite list_elem_of_filter. Qed.

(** Applying an idempotent rewrite at each non-null address of a list, in
    order: an address on the list is rewritten (once in effect, however
    often it occurs), every other address is left alone. *)
Lemma alter_targets_lookup {A : Type} (f : A -> A) (ps : list Z) (m : gmap Z A) (p : Z) :
  (forall x, f (f x) = f x) ->
  foldl (fun m q => if q =? 0 then m else alter f q m) m ps !! p
  = if decide (p ∈ filter (fun q => q <> 0) ps) then f <$> m !! p else m !! p.
Proof.
  intros Hidem. revert m. induction ps as [|q ps IH]; intros m; cbn [foldl].
  - rewrite decide_False; [done|]. rewrite elem_of_targets. intros [_ H].
    by apply not_elem_of_nil in H.
  - rewrite IH. destruct (Z.eqb_spec q 0) as [->|Hq].
    + destruct (decide (p ∈ filter (fun q => q <> 0) ps)) as [Hin|Hin].
      * rewrite decide_True; [done|].
        apply elem_of_targets in Hin as [Hp Hin]. apply elem_of_targets.
        split; [done|]. by apply list_elem_of_further.
      * rewrite decide_False; [done|]. rewrite elem_of_targets, elem_of_cons.
        intros [Hp [->|Hps]]; [done|]. apply Hin, elem_of_targets. done.
    + destruct (decide (q = p)) as [->|Hne].
      * rewrite lookup_alter_eq.
        rewrite (decide_True (P := p ∈ filter _ (p :: ps))).
        2:{ apply elem_of_targets. split; [done|]. apply list_elem_of_here. }
        case_decide; [|done]. rewrite <- option_fmap_compose.
        apply option_fmap_ext. intros x. apply Hidem.
      * rewrite lookup_alter_ne by done.
        destruct (decide (p ∈ filter (fun q => q <> 0) ps)) as [Hin|Hin].
        -- rewrite decide_True; [done|].
           apply elem_of_targets in Hin as [Hp Hin]. apply elem_of_targets.
           split; [done|]. by apply list_elem_of_further.
        -- rewrite decide_False; [done|]. rewrite elem_of_targets, elem_of_cons.
           intros [Hp [->|Hps]]; [done|]. apply Hin, elem_of_targets. done.
Qed.

Lemma optimize_descriptor_step info mem acc :
  let res := optimize_descriptor info (mem, acc) in
  res.2 = acc ++ [info] /\
  rasterization_states res.1
  = (if pRasterizationState info =? 0 then rasterization_states mem
     else alter OptimizeRasterizationState (pRasterizationState info)
                (rasterization_states mem)) /\
  multisample_states res.1
  = (if pMultisampleState info =? 0 then multisample_states mem
     else alter OptimizeMultisampleState (pMultisampleState info)
                (multisample_states mem)).
Proof.
  cbn. by destruct (pRasterizationState info =? 0), (pMultisampleState info =? 0).
Qed.

(** The descriptor loop: the vector handed on is the batch itself, and the
    two kinds of state are rewritten at the addresses the batch points to. *)
Lemma optimize_batch (l : list VkGraphicsPipelineCreateInfo) (mem : Memory)
    (acc : list VkGraphicsPipelineCreateInfo) :
  let res := foldl (fun a info => optimize_descriptor info a) (mem, acc) l in
  res.2 = acc ++ l /\
  rasterization_states res.1
  = foldl (fun m q => if q =? 0 then m else alter OptimizeRasterizationState q m)
          (rasterization_states mem) (pRasterizationState <$> l) /\
  multisample_states res.1
  = foldl (fun m q => if q =? 0 then m else alter OptimizeMultisampleState q m)
          (multisample_states mem) (pMultisampleState <$> l).
Proof.
  revert mem acc. induction l as [|info l IH]; intros mem acc.
  - cbn. by rewrite app_nil_r.
  - cbn [foldl fmap list_fmap].
    destruct (optimize_descriptor info (mem, acc)) as [mem1 acc1] eqn:E.
    pose proof (optimize_descriptor_step info mem acc) as (Hacc & Hr & Hm).
    rewrite E in Hacc, Hr, Hm. cbn [fst snd] in Hacc, Hr, Hm.
    destruct (IH mem1 acc1) as (Hout & Hr' & Hm').
    cbn zeta. rewrite Hout, Hr', Hm', Hacc, Hr, Hm, <- app_assoc. done.
Qed.

(** ** The device context *)

Lemma step_context (w : Xclipse940Wrapper) (c : Call) :
  (features_initialized_ w = true -> is_Some (device_context_ w)) ->
  features_initialized_ (step w c) = true -> is_Some (device_context_ (step w c)).
Proof.
  intros Hinv. destruct c; cbn [step].
  - unfold InitializeDeviceContext. destruct (_ || _); cbn; [done|]. by eexists.
  - rewrite CreateGraphicsPipelines_wrapper. destruct (_ && _); [|done].
    by rewrite !(proj1 (CachePipelines_frame _ _ _ _)),
               !(proj2 (CachePipelines_frame _ _ _ _)).
  - rewrite CreateComputePipelines_wrapper. destruct (_ && _); [|done].
    rewrite post_pass_fold. cbn [set_pipeline_cache_ features_initialized_ device_context_].
    by rewrite !(proj1 (CachePipelines_frame _ _ _ _)),
               !(proj2 (CachePipelines_frame _ _ _ _)).
  - unfold AllocateMemory. destruct (features_initialized_ w) eqn:E; cbn [negb];
      destruct (next_vkAllocateMemory _ _); cbn [wrapper]; rewrite ?E; done.
  - done.
Qed.

(** Whenever [features_initialized_] is set, [device_context_] holds a
    context: [OptimizeMemoryAllocation] never dereferences a null pointer. *)
Lemma initialized_has_context (calls : list Call) :
  features_initialized_ (run calls g_wrapper_initial) = true ->
  is_Some (device_context_ (run calls g_wrapper_initial)).
Proof.
  unfold run. induction calls as [|c calls IH] using rev_ind; [done|].
  rewrite foldl_app. cbn [foldl]. by apply step_context.
Qed.

(** * Further properties of the code *)

(** ** What no call changes *)

Lemma AllocateMemory_wrapper next w d info a :
  wrapper (AllocateMemory next w d info a) = w.
Proof.
  unfold AllocateMemory. destruct (features_initialized_ w); cbn [negb];
    by destruct (next_vkAllocateMemory _ _).
Qed.

Lemma post_pass_frame (l : list Z) w :
  let w' := foldl (fun acc p => OptimizeComputePipeline p acc) w l in
  features_initialized_ w' = features_initialized_ w /\
  device_context_ w' = device_context_ w.
Proof. cbn zeta. by rewrite post_pass_fold. Qed.

Lemma CreateGraphicsPipelines_flags next w mem d pc n infos a :
  let g := CreateGraphicsPipelines next w mem d pc n infos a in
  features_initialized_ (wrapper g) = features_initialized_ w /\
  device_context_ (wrapper g) = device_context_ w /\
  (features_initialized_ w = false -> wrapper g = w).
Proof.
  cbn zeta. rewrite CreateGraphicsPipelines_wrapper.
  destruct (features_initialized_ w) eqn:E; cbn [andb]; [|by rewrite E].
  destruct (_ =? _); [|by rewrite E].
  destruct (CachePipelines_frame
              (output (CreateGraphicsPipelines next w mem d pc n infos a)) n
              VK_PIPELINE_BIND_POINT_GRAPHICS w) as [-> ->].
  by rewrite E.
Qed.

Lemma CreateComputePipelines_flags next w d pc n infos a :
  let c := CreateComputePipelines next w d pc n infos a in
  features_initialized_ (wrapper c) = features_initialized_ w /\
  device_context_ (wrapper c) = device_context_ w /\
  (features_initialized_ w = false -> wrapper c = w).
Proof.
  cbn zeta. rewrite CreateComputePipelines_wrapper.
  destruct (features_initialized_ w) eqn:E; cbn [andb]; [|by rewrite E].
  destruct (_ =? _); [|by rewrite E].
  rewrite post_pass_fold. cbn [set_pipeline_cache_ features_initialized_ device_context_].
  destruct (CachePipelines_frame
              (output (CreateComputePipelines next w d pc n infos a)) n
              VK_PIPELINE_BIND_POINT_COMPUTE w) as [-> ->].
  by rewrite E.
Qed.

Lemma entry_frame (s : Layer.LayerState) (c : Layer.EntryCall) :
  let s' := (Layer.entry s c).1 in
  Layer.statics s' = Layer.statics s /\
  features_initialized_ (Layer.g_wrapper s') = features_initialized_ (Layer.g_wrapper s) /\
  device_context_ (Layer.g_wrapper s') = device_context_ (Layer.g_wrapper s) /\
  (features_initialized_ (Layer.g_wrapper s) = false -> s' = s).
Proof.
  destruct s as [st w]. destruct c; cbn -[CreateGraphicsPipelines CreateComputePipelines
                                           AllocateMemory QueueSubmit]; try done.
  - destruct (CreateGraphicsPipelines_flags next w mem device0 pipelineCache
                createInfoCount pCreateInfos pAllocator) as (-> & -> & H).
    repeat split. intros E. by rewrite H.
  - destruct (CreateComputePipelines_flags next w device0 pipelineCache
                createInfoCount pCreateInfos pAllocator) as (-> & -> & H).
    repeat split. intros E. by rewrite H.
  - by rewrite AllocateMemory_wrapper.
Qed.

Lemma layer_run_frame (calls : list Layer.EntryCall) (s : Layer.LayerState) :
  let s' := Layer.layer_run calls s in
  Layer.statics s' = Layer.statics s /\
  features_initialized_ (Layer.g_wrapper s') = features_initialized_ (Layer.g_wrapper s) /\
  device_context_ (Layer.g_wrapper s') = device_context_ (Layer.g_wrapper s) /\
  (features_initialized_ (Layer.g_wrapper s) = false -> s' = s).
Proof.
  cbn zeta. unfold Layer.layer_run.
  induction calls as [|c calls IH] using rev_ind; [done|].
  rewrite foldl_app. cbn [foldl].
  destruct IH as (H1 & H2 & H3 & H4).
  destruct (entry_frame (foldl (fun s c => (Layer.entry s c).1) s calls) c)
    as (E1 & E2 & E3 & E4).
  cbn zeta in E1, E2, E3, E4.
  rewrite E1, E2, E3, H1, H2, H3. repeat split.
  intros Hf. rewrite E4; [by apply H4|]. by rewrite H2.
Qed.

(** X1.  No exported entry point of the layer writes the file-scope
    variables of layer_init.cpp or initializes the device context: after
    any sequence of entry-point calls, from any state, the registered
    next-link pointers, the initialized flag and the device context are
    what they were; and if the flag was clear, the whole state, record map
    included, is what it was. *)
Theorem entry_points_never_initialize (calls : list Layer.EntryCall) (s : Layer.LayerState) :
  let s' := Layer.layer_run calls s in
  Layer.statics s' = Layer.statics s /\
  features_initialized_ (Layer.g_wrapper s') = features_initialized_ (Layer.g_wrapper s) /\
  device_context_ (Layer.g_wrapper s') = device_context_ (Layer.g_wrapper s) /\
  (features_initialized_ (Layer.g_wrapper s) = false -> s' = s).
Proof. apply layer_run_frame. Qed.

Lemma entry_points_never_initialize_witness :
  Layer.layer_run
    [ Layer.Entry_vkCreateDevice 1 2 0;
      Layer.Entry_vkCreateComputePipelines (sample_next VK_SUCCESS [7]) 2 0 1
        [sample_compute_info] 0;
      Layer.Entry_vkAllocateMemory (sample_next VK_SUCCESS []) 2
        (sample_allocate_info 100 0) 0 ]
    Layer.layer_initial
  = Layer.layer_initial.
Proof.
  apply (proj2 (proj2 (proj2 (entry_points_never_initialize
    [ Layer.Entry_vkCreateDevice 1 2 0;
      Layer.Entry_vkCreateComputePipelines (sample_next VK_SUCCESS [7]) 2 0 1
        [sample_compute_info] 0;
      Layer.Entry_vkAllocateMemory (sample_next VK_SUCCESS []) 2
        (sample_allocate_info 100 0) 0 ]
    Layer.layer_initial)))).
  reflexivity.
Defined.

(** ** The device context over sequences of calls *)

Lemma step_initialized (w : Xclipse940Wrapper) (c : Call) :
  features_initialized_ w = true -> features_initialized_ (step w c) = true.
Proof.
  intros Hi. destruct c; cbn [step].
  - unfold InitializeDeviceContext. by destruct (_ || _).
  - by rewrite (proj1 (CreateGraphicsPipelines_flags _ _ _ _ _ _ _ _)).
  - by rewrite (proj1 (CreateComputePipelines_flags _ _ _ _ _ _ _)).
  - by rewrite AllocateMemory_wrapper.
  - done.
Qed.

Lemma step_context_handles (w : Xclipse940Wrapper) (c : Call) :
  (features_initialized_ w = true ->
   exists ctx, device_context_ w = Some ctx /\
               physical_device ctx <> 0 /\ device ctx <> 0) ->
  features_initialized_ (step w c) = true ->
  exists ctx, device_context_ (step w c) = Some ctx /\
              physical_device ctx <> 0 /\ device ctx <> 0.
Proof.
  intros Hinv. destruct c; cbn [step].
  - unfold InitializeDeviceContext.
    destruct (Z.eqb_spec physical_device0 0) as [|Hp]; cbn [orb]; [done|].
    destruct (Z.eqb_spec device0 0) as [|Hd]; cbn [snd]; [done|].
    intros _. eexists. by split.
  - destruct (CreateGraphicsPipelines_flags next w mem device0 pipelineCache
                createInfoCount pCreateInfos pAllocator) as (-> & -> & _). done.
  - destruct (CreateComputePipelines_flags next w device0 pipelineCache
                createInfoCount pCreateInfos pAllocator) as (-> & -> & _). done.
  - by rewrite AllocateMemory_wrapper.
  - done.
Qed.

(** X3.  Initialization is permanent and always comes with a context: once
    [features_initialized_] is set, no sequence of calls (failed
    re-initializations included) clears it; and whenever it is set after a
    sequence of calls on a fresh wrapper, [device_context_] holds a context
    whose physical-device and device handles are both non-null. *)
Theorem initialization_is_permanent (calls : list Call) (w : Xclipse940Wrapper) :
  (features_initialized_ w = true -> features_initialized_ (run calls w) = true) /\
  (features_initialized_ (run calls g_wrapper_initial) = true ->
   exists ctx, device_context_ (run calls g_wrapper_initial) = Some ctx /\
               physical_device ctx <> 0 /\ device ctx <> 0).
Proof.
  unfold run. split.
  - intros Hi. induction calls as [|c calls IH] using rev_ind; [done|].
    rewrite foldl_app. cbn [foldl]. by apply step_initialized.
  - induction calls as [|c calls IH] using rev_ind; [done|].
    rewrite foldl_app. cbn [foldl]. by apply step_context_handles.
Qed.

Lemma initialization_is_permanent_witness :
  features_initialized_
    (run [CallInitializeDeviceContext (sample_next VK_SUCCESS []) 0 0;
          CallAllocateMemory (sample_next VK_SUCCESS []) 2 (sample_allocate_info 1 0) 0]
         sample_initialized) = true.
Proof.
  apply (proj1 (initialization_is_permanent
    [CallInitializeDeviceContext (sample_next VK_SUCCESS []) 0 0;
     CallAllocateMemory (sample_next VK_SUCCESS []) 2 (sample_allocate_info 1 0) 0]
    sample_initialized)).
  reflexivity.
Defined.

(** ** Usage counters *)

Lemma occurrences_cons (h p : Z) (l : list Z) :
  occurrences h (p :: l) = if decide (p = h) then S (occurrences h l) else occurrences h l.
Proof.
  unfold occurrences. rewrite filter_cons. by case_decide.
Qed.

Lemma occurrences_absent (h : Z) (l : list Z) : h ∉ l -> occurrences h l = 0%nat.
Proof.
  induction l as [|p l IH]; [done|]. rewrite not_elem_of_cons, occurrences_cons.
  intros [Hne Hl]. rewrite decide_False by done. by apply IH.
Qed.

(** The post-pass bumps the record of a handle once per occurrence of the
    handle in the batch. *)
Lemma post_pass_lookup_occurrences (l : list Z) (m : gmap Z PipelineState) (h : Z) :
  foldl (fun m p => alter bump_usage p m) m l !! h
  = Nat.iter (occurrences h l) bump_usage <$> m !! h.
Proof.
  revert m. induction l as [|p l IH]; intros m; cbn [foldl].
  - cbn. by destruct (m !! h).
  - rewrite IH, occurrences_cons, lookup_alter.
    destruct (decide (p = h)) as [->|Hne]; [|done].
    rewrite <- option_fmap_compose. apply option_fmap_ext. intros st.
    cbn [compose]. by rewrite Nat.iter_succ_r.
Qed.

Lemma iter_bump_created bp (h : Z) (k : nat) :
  Nat.iter k bump_usage (created_state bp 1 h)
  = created_state bp (wrap64 (1 + Z.of_nat k)) h.
Proof.
  induction k as [|k IH]; [reflexivity|].
  rewrite Nat.iter_succ, IH. unfold bump_usage, set_usage_count, created_state.
  cbn [pipeline usage_count bind_point shader_stages]. f_equal.
  unfold wrap64. rewrite Zplus_mod_idemp_l. f_equal. lia.
Qed.

Lemma compute_success_lookup_occurrences next w d pc n infos a h :
  let c := CreateComputePipelines next w d pc n infos a in
  features_initialized_ w = true -> returned c = VK_SUCCESS ->
  pipeline_cache_ (wrapper c) !! h
  = if decide (h ∈ batch_handles n (output c))
    then Some (created_state VK_PIPELINE_BIND_POINT_COMPUTE
                 (wrap64 (1 + Z.of_nat (occurrences h (batch_handles n (output c))))) h)
    else pipeline_cache_ w !! h.
Proof.
  cbn zeta. intros Hi Hr. rewrite CreateComputePipelines_wrapper, Hi, Hr.
  cbn [andb Z.eqb VK_SUCCESS]. rewrite post_pass_fold.
  cbn [pipeline_cache_ set_pipeline_cache_].
  rewrite post_pass_lookup_occurrences, CachePipelines_lookup.
  case_decide as Hin.
  - cbn [fmap option_fmap option_map]. by rewrite iter_bump_created.
  - rewrite occurrences_absent by done. cbn. by destruct (pipeline_cache_ w !! h).
Qed.

(** ** Invariants of the record map *)

Lemma created_state_well_formed_graphics (h : Z) :
  record_well_formed h (created_state VK_PIPELINE_BIND_POINT_GRAPHICS 1 h).
Proof. unfold record_well_formed. cbn. repeat split; lia. Qed.

Lemma created_state_well_formed_compute (h u : Z) :
  record_well_formed h (created_state VK_PIPELINE_BIND_POINT_COMPUTE (wrap64 u) h).
Proof.
  unfold record_well_formed, wrap64. cbn.
  pose proof (Z.mod_pos_bound u (2 ^ 64) ltac:(lia)). repeat split; try lia. discriminate.
Qed.

Lemma step_well_formed (w : Xclipse940Wrapper) (c : Call) :
  (forall k s, pipeline_cache_ w !! k = Some s -> record_well_formed k s) ->
  forall h st, pipeline_cache_ (step w c) !! h = Some st -> record_well_formed h st.
Proof.
  intros Hinv h st. destruct c; cbn [step].
  - unfold InitializeDeviceContext. destruct (_ || _); cbn; apply Hinv.
  - rewrite CreateGraphicsPipelines_wrapper. destruct (_ && _); [|apply Hinv].
    rewrite CachePipelines_lookup. case_decide; [|apply Hinv].
    intros [= <-]. apply created_state_well_formed_graphics.
  - destruct (features_initialized_ w) eqn:Hi.
    + destruct (Z.eqb_spec (returned (CreateComputePipelines next w device0 pipelineCache
                              createInfoCount pCreateInfos pAllocator)) VK_SUCCESS)
        as [Hr|Hr].
      * rewrite compute_success_lookup_occurrences by done.
        case_decide; [|apply Hinv]. intros [= <-].
        apply created_state_well_formed_compute.
      * rewrite CreateComputePipelines_wrapper, Hi. cbn [andb].
        destruct (Z.eqb_spec (returned (CreateComputePipelines next w device0
                    pipelineCache createInfoCount pCreateInfos pAllocator)) VK_SUCCESS);
          [done|apply Hinv].
    + rewrite (proj2 (proj2 (CreateComputePipelines_flags next w device0 pipelineCache
                 createInfoCount pCreateInfos pAllocator)) Hi). apply Hinv.
  - rewrite AllocateMemory_wrapper. apply Hinv.
  - apply Hinv.
Qed.

Lemma step_uninitialized_empty (w : Xclipse940Wrapper) (c : Call) :
  (features_initialized_ w = false -> pipeline_cache_ w = ∅) ->
  features_initialized_ (step w c) = false -> pipeline_cache_ (step w c) = ∅.
Proof.
  intros Hinv. destruct c; cbn [step].
  - unfold InitializeDeviceContext. destruct (_ || _); cbn; [apply Hinv|done].
  - destruct (CreateGraphicsPipelines_flags next w mem device0 pipelineCache
                createInfoCount pCreateInfos pAllocator) as (-> & _ & H).
    intros Hf. rewrite H by done. by apply Hinv.
  - destruct (CreateComputePipelines_flags next w device0 pipelineCache
                createInfoCount pCreateInfos pAllocator) as (-> & _ & H).
    intros Hf. rewrite H by done. by apply Hinv.
  - rewrite AllocateMemory_wrapper. apply Hinv.
  - apply Hinv.
Qed.

(** X4.  After any sequence of calls on a fresh wrapper, every record of
    the map sits under its own handle, has no stage flags set, has a usage
    counter within 64 bits, and, if it is a graphics record, has usage
    counter exactly 1 (only compute records are ever counted up); and as
    long as the device context is not initialized the map is empty. *)
Theorem record_map_invariants (calls : list Call) :
  (forall h st, pipeline_cache_ (run calls g_wrapper_initial) !! h = Some st ->
                record_well_formed h st) /\
  (features_initialized_ (run calls g_wrapper_initial) = false ->
   pipeline_cache_ (run calls g_wrapper_initial) = ∅).
Proof.
  unfold run. induction calls as [|c calls [IH1 IH2]] using rev_ind.
  - split; [|done]. intros h st. cbn. by rewrite lookup_empty.
  - rewrite foldl_app. cbn [foldl]. split.
    + by apply step_well_formed.
    + by apply step_uninitialized_empty.
Qed.

Lemma record_map_invariants_witness :
  record_well_formed 7 (created_state VK_PIPELINE_BIND_POINT_GRAPHICS 1 7).
Proof.
  apply (proj1 (record_map_invariants
    [CallInitializeDeviceContext (sample_next VK_SUCCESS []) 1 2;
     CallCreateComputePipelines (sample_next VK_SUCCESS [7; 7]) 2 0 2
       [sample_compute_info; sample_compute_info] 0;
     CallCreateGraphicsPipelines (sample_next VK_SUCCESS [7]) sample_memory 2 0 1
       [sample_graphics_info 0 0] 0]) 7).
  reflexivity.
Defined.

(** ** Workload classes of a submission batch *)

Lemma classify_fold (entries : list (nat * VkSubmitInfo)) (c0 : SubmissionClasses) :
  let c := foldl (fun acc e => classify_submit e acc) c0 entries in
  compute_submits c
  = compute_submits c0
    ++ (filter (fun e => IsLikelyComputeWorkload e.2 = true) entries).*1 /\
  transfer_submits c
  = transfer_submits c0
    ++ (filter (fun e => IsLikelyComputeWorkload e.2 = false /\
                         IsLikelyTransferWorkload e.2 = true) entries).*1 /\
  graphics_submits c
  = graphics_submits c0
    ++ (filter (fun e => IsLikelyComputeWorkload e.2 = false /\
                         IsLikelyTransferWorkload e.2 = false) entries).*1.
Proof.
  revert c0. induction entries as [|[i s] entries IH]; intros c0; cbn [foldl].
  - cbn. by rewrite !app_nil_r.
  - destruct (IH (classify_submit (i, s) c0)) as (Hc & Ht & Hg).
    cbn zeta. rewrite Hc, Ht, Hg. unfold classify_submit.
    rewrite !filter_cons. cbn [snd].
    destruct (IsLikelyComputeWorkload s), (IsLikelyTransferWorkload s);
      cbn [compute_submits graphics_submits transfer_submits];
      repeat case_decide; try (exfalso; intuition congruence);
      cbn [fmap list_fmap fst]; by rewrite <- ?app_assoc.
Qed.

Lemma classify_permutation (entries : list (nat * VkSubmitInfo)) (c0 : SubmissionClasses) :
  let c := foldl (fun acc e => classify_submit e acc) c0 entries in
  compute_submits c ++ graphics_submits c ++ transfer_submits c
  ≡ₚ (compute_submits c0 ++ graphics_submits c0 ++ transfer_submits c0) ++ entries.*1.
Proof.
  revert c0. induction entries as [|[i s] entries IH]; intros c0; cbn [foldl].
  - cbn. by rewrite app_nil_r.
  - cbn zeta. rewrite IH. cbn [fmap list_fmap fst]. unfold classify_submit.
    destruct (IsLikelyComputeWorkload s), (IsLikelyTransferWorkload s);
      cbn [compute_submits graphics_submits transfer_submits];
      solve_Permutation.
Qed.

Lemma entries_indices (count : nat) (submits : list VkSubmitInfo) :
  (take count (imap (fun i s => (i, s)) submits)).*1 = visited_indices count submits.
Proof.
  unfold visited_indices. rewrite fmap_take, fmap_imap.
  rewrite (imap_ext _ (fun j _ => j)) by done.
  rewrite (imap_seq_0 submits (fun j => j)), list_fmap_id. apply take_seq.
Qed.

Lemma elem_of_entries (count : nat) (submits : list VkSubmitInfo) (i : nat) (s : VkSubmitInfo) :
  (i, s) ∈ take count (imap (fun i s => (i, s)) submits)
  <-> (i < count)%nat /\ submits !! i = Some s.
Proof.
  rewrite list_elem_of_lookup. split.
  - intros [j Hj]. destruct (decide (j < count)%nat) as [Hlt|Hge].
    + rewrite lookup_take_lt, list_lookup_imap in Hj by done.
      destruct (submits !! j) as [v|] eqn:Hv; [|done].
      cbn in Hj. by injection Hj as <- <-.
    + rewrite lookup_take_ge in Hj by lia. done.
  - intros [Hlt Hs]. exists i. by rewrite lookup_take_lt, list_lookup_imap, Hs.
Qed.

Lemma elem_of_class (P : nat * VkSubmitInfo -> Prop) `{!forall e, Decision (P e)}
    (count : nat) (submits : list VkSubmitInfo) (i : nat) (s : VkSubmitInfo) :
  (i < count)%nat -> submits !! i = Some s ->
  i ∈ (filter P (take count (imap (fun i s => (i, s)) submits))).*1 <-> P (i, s).
Proof.
  intros Hlt Hs. rewrite list_elem_of_fmap. split.
  - intros [[j s'] [Hj [HP Hin]%list_elem_of_filter]]. cbn in Hj. subst j.
    apply elem_of_entries in Hin as [_ Hs']. congruence.
  - intros HP. exists (i, s). split; [done|]. apply list_elem_of_filter.
    split; [done|]. by apply elem_of_entries.
Qed.

(** X7.  The workload heuristic sorts the visited submissions into the
    three vectors without losing, repeating or reordering any: together
    the vectors are a rearrangement of the visited indices, each vector
    lists its indices in batch order, and a submission goes to the compute
    vector exactly when it has more than two command buffers, to the
    transfer vector exactly when it has one, and to the graphics vector
    otherwise (none or two). *)
Theorem submissions_classified (submits : list VkSubmitInfo) (count : nat) :
  let c := OptimizeQueueSubmission submits count in
  compute_submits c ++ graphics_submits c ++ transfer_submits c
    ≡ₚ visited_indices count submits /\
  compute_submits c `sublist_of` visited_indices count submits /\
  graphics_submits c `sublist_of` visited_indices count submits /\
  transfer_submits c `sublist_of` visited_indices count submits /\
  (forall i s, (i < count)%nat -> submits !! i = Some s ->
     (i ∈ compute_submits c <-> 2 < commandBufferCount s) /\
     (i ∈ transfer_submits c <-> commandBufferCount s = 1) /\
     (i ∈ graphics_submits c <->
        commandBufferCount s <= 2 /\ commandBufferCount s <> 1)).
Proof.
  cbn zeta. unfold OptimizeQueueSubmission. rewrite for_each_take.
  set (entries := take count (imap (fun i s => (i, s)) submits)).
  set (c0 := {| compute_submits := []; graphics_submits := []; transfer_submits := [] |}).
  destruct (classify_fold entries c0) as (Hc & Ht & Hg). cbn zeta in Hc, Ht, Hg.
  pose proof (classify_permutation entries c0) as Hp. cbn zeta in Hp.
  cbn [c0 compute_submits graphics_submits transfer_submits app] in Hc, Ht, Hg, Hp.
  rewrite <- entries_indices. fold entries.
  split; [done|]. rewrite Hc, Ht, Hg.
  split; [apply fmap_sublist, sublist_filter|].
  split; [apply fmap_sublist, sublist_filter|].
  split; [apply fmap_sublist, sublist_filter|].
  intros i s Hlt Hs. unfold entries.
  rewrite !(elem_of_class _ count submits i s Hlt Hs). cbn [snd].
  unfold IsLikelyComputeWorkload, IsLikelyTransferWorkload.
  destruct (Z.ltb_spec 2 (commandBufferCount s)),
           (Z.eqb_spec (commandBufferCount s) 1); intuition (try lia; try discriminate).
Qed.

Lemma submissions_classified_witness :
  let c := OptimizeQueueSubmission
             [sample_submit 3; sample_submit 1; sample_submit 2; sample_submit 5] 4 in
  (2%nat ∈ graphics_submits c <->
   commandBufferCount (sample_submit 2) <= 2 /\ commandBufferCount (sample_submit 2) <> 1).
Proof.
  cbn zeta.
  apply (proj2 (proj2 (proj2 (proj2 (submissions_classified
           [sample_submit 3; sample_submit 1; sample_submit 2; sample_submit 5] 4)))) 2%nat
           (sample_submit 2)).
  - lia.
  - reflexivity.
Defined.

Lemma OptimizeMemoryAllocation_set ctx info :
  OptimizeMemoryAllocation ctx info
  = set_allocationSize (wrap32 (wrap64 (allocationSize info + 63)) / 64 * 64) info.
Proof.
  rewrite <- (OptimizeMemoryAllocation_size ctx info).
  unfold OptimizeMemoryAllocation.
  destruct ctx as [ctx|]; [|done].
  destruct (_ <? _); [|done]. destruct (_ !! _); [|done]. by destruct (negb _).
Qed.

Lemma memory_eq (m1 m2 : Memory) :
  rasterization_states m1 = rasterization_states m2 ->
  multisample_states m1 = multisample_states m2 -> m1 = m2.
Proof. destruct m1, m2. cbn. by intros -> ->. Qed.

(** ** The two-call convention of the enumeration query *)

(** X13.  The count-then-fill convention works: a count-only call (null
    buffer) stores nothing and sets the count to 1, whatever the count cell
    held; a second call with a buffer and the count of the first succeeds,
    leaves the count at 1 and stores exactly the layer's identity record at
    index 0.  With a null count pointer nothing is stored and no count is
    written, buffer or not. *)
Theorem enumerate_count_then_fill (declared pProperties : Z) :
  pProperties <> 0 ->
  let first := vkEnumerateInstanceLayerProperties (Some declared) 0 in
  let second := vkEnumerateInstanceLayerProperties (enum_count first) pProperties in
  enum_stores first = [] /\ enum_count first = Some 1 /\
  enum_result second = VK_SUCCESS /\ enum_count second = Some 1 /\
  enum_stores second = [(0%nat, layer_properties)] /\
  enum_stores (vkEnumerateInstanceLayerProperties None pProperties) = [] /\
  enum_count (vkEnumerateInstanceLayerProperties None pProperties) = None.
Proof.
  intros Hp. cbn zeta. rewrite enumerate_count_only. cbn [enum_count enum_stores].
  rewrite enumerate_with_buffer by done. rewrite enumerate_null_count. done.
Qed.

Lemma enumerate_count_then_fill_witness :
  enum_stores
    (vkEnumerateInstanceLayerProperties
       (enum_count (vkEnumerateInstanceLayerProperties (Some 17) 0)) 4096)
  = [(0%nat, layer_properties)].
Proof.
  refine (proj1 (proj2 (proj2 (proj2 (proj2 (enumerate_count_then_fill 17 4096 _)))))).
  discriminate.
Defined.

(** ** Negotiating again *)

(** X14.  Negotiation settles after two calls: for a record with the
    negotiation tag, negotiating on the record the first call left behind
    succeeds with version 2, both resolver slots set and the
    physical-device slot null, even when the first request was for a
    version below 2 and left the slots untouched, and a third call changes
    nothing more; for a record with another tag, every call fails and the
    record stays as it was. *)
Theorem negotiate_again (s : VkNegotiateLayerInterface) :
  let r1 := vkNegotiateLoaderLayerInterfaceVersion s in
  let r2 := vkNegotiateLoaderLayerInterfaceVersion r1.2 in
  let r3 := vkNegotiateLoaderLayerInterfaceVersion r2.2 in
  (sType s = LAYER_NEGOTIATE_INTERFACE_STRUCT ->
   r2 = (VK_SUCCESS,
         {| sType := sType s; pNext := pNext s; loaderLayerInterfaceVersion := 2;
            pfnGetInstanceProcAddr := slot_vkGetInstanceProcAddr;
            pfnGetDeviceProcAddr := slot_vkGetDeviceProcAddr;
            pfnGetPhysicalDeviceProcAddr := slot_nullptr |}) /\
   r3 = r2) /\
  (sType s <> LAYER_NEGOTIATE_INTERFACE_STRUCT ->
   r1 = (VK_ERROR_INITIALIZATION_FAILED, s) /\ r2 = r1 /\ r3 = r1).
Proof.
  cbn zeta. unfold vkNegotiateLoaderLayerInterfaceVersion. split.
  - intros Htag. rewrite Htag, Z.eqb_refl. cbn [negb snd].
    destruct (2 <=? loaderLayerInterfaceVersion s); cbn; by rewrite ?Htag.
  - intros Htag. apply Z.eqb_neq in Htag.
    repeat (rewrite Htag; cbn [negb snd]). done.
Qed.

Lemma negotiate_again_witness :
  vkNegotiateLoaderLayerInterfaceVersion
    (vkNegotiateLoaderLayerInterfaceVersion
       {| sType := 1; pNext := 0; loaderLayerInterfaceVersion := 1;
          pfnGetInstanceProcAddr := slot_other 7; pfnGetDeviceProcAddr := slot_other 8;
          pfnGetPhysicalDeviceProcAddr := slot_other 9 |}).2
  = (VK_SUCCESS,
     {| sType := 1; pNext := 0; loaderLayerInterfaceVersion := 2;
        pfnGetInstanceProcAddr := slot_vkGetInstanceProcAddr;
        pfnGetDeviceProcAddr := slot_vkGetDeviceProcAddr;
        pfnGetPhysicalDeviceProcAddr := slot_nullptr |}).
Proof.
  apply (proj1 (proj1 (negotiate_again
           {| sType := 1; pNext := 0; loaderLayerInterfaceVersion := 1;
              pfnGetInstanceProcAddr := slot_other 7;
              pfnGetDeviceProcAddr := slot_other 8;
              pfnGetPhysicalDeviceProcAddr := slot_other 9 |}) eq_refl)).
Defined.

(** ** Initializing the device context *)

(** X15.  [InitializeDeviceContext] succeeds exactly when both handles are
    non-null.  A failed call leaves the wrapper as it was.  A successful
    call sets the initialized flag, stores a context made of the two
    handles and of the properties and memory properties the next link
    reports for the physical device, and keeps every record of the map,
    also when the wrapper had been initialized before. *)
Theorem initialize_device_context (next : NextLayer) (pd dv : Z) (w : Xclipse940Wrapper) :
  let r := InitializeDeviceContext next pd dv w in
  (r.1 = true <-> pd <> 0 /\ dv <> 0) /\
  (r.1 = false -> r.2 = w) /\
  (r.1 = true ->
   features_initialized_ r.2 = true /\
   device_context_ r.2
   = Some {| physical_device := pd; device := dv;
             properties := next_vkGetPhysicalDeviceProperties next pd;
             memory_properties := next_vkGetPhysicalDeviceMemoryProperties next pd |} /\
   pipeline_cache_ r.2 = pipeline_cache_ w).
Proof.
  cbn zeta. unfold InitializeDeviceContext.
  destruct (Z.eqb_spec pd 0) as [Hp|Hp], (Z.eqb_spec dv 0) as [Hd|Hd]; cbn;
    repeat split; try done; intros; try done; lia.
Qed.

Lemma initialize_device_context_witness :
  pipeline_cache_
    (InitializeDeviceContext (sample_next VK_SUCCESS []) 3 4
       (CachePipelines [9] 1 VK_PIPELINE_BIND_POINT_GRAPHICS sample_initialized)).2
  = pipeline_cache_ (CachePipelines [9] 1 VK_PIPELINE_BIND_POINT_GRAPHICS sample_initialized).
Proof.
  apply (proj2 (proj2 (initialize_device_context (sample_next VK_SUCCESS []) 3 4
           (CachePipelines [9] 1 VK_PIPELINE_BIND_POINT_GRAPHICS sample_initialized)))).
  reflexivity.
Defined.

(** * The calls the layer makes, as bound in xclipse_wrapper.cpp *)

Lemma set_memory_same (m : Linked.Machine) : Linked.set_memory (Linked.memory m) m = m.
Proof. by destruct m. Qed.

(** [vkQueueSubmit] re-enters itself with the arguments it was given. *)
Lemma linked_submit depth m queue n subs fence :
  let r := Linked.vkQueueSubmit depth m queue n subs fence in
  r.1 = None /\
  Linked.g_wrapper r.2 = Linked.g_wrapper m /\
  Linked.memory r.2 = Linked.memory m /\
  Linked.entered r.2
  = Linked.entered m
    ++ replicate depth (Linked.Entered_vkQueueSubmit
                          {| qs_queue := queue; qs_submitCount := n;
                             qs_pSubmits := subs; qs_fence := fence |}).
Proof.
  cbn zeta. revert m. induction depth as [|depth IH]; intros m.
  - cbn. by rewrite app_nil_r.
  - cbn [Linked.vkQueueSubmit]. cbn zeta.
    destruct (IH (Linked.enter (Linked.Entered_vkQueueSubmit
                    {| qs_queue := queue; qs_submitCount := n;
                       qs_pSubmits := subs; qs_fence := fence |}) m))
      as (-> & -> & -> & ->).
    cbn. by rewrite <- app_assoc.
Qed.

(** [vkAllocateMemory] re-enters itself; with a request the wrapper hands
    on as it is, every entry carries that request. *)
Lemma linked_allocate_stable depth m device info a :
  features_initialized_ (Linked.g_wrapper m) = false \/
  OptimizeMemoryAllocation (device_context_ (Linked.g_wrapper m)) info = info ->
  let r := Linked.vkAllocateMemory depth m device info a in
  r.1 = None /\
  Linked.g_wrapper r.2 = Linked.g_wrapper m /\
  Linked.memory r.2 = Linked.memory m /\
  Linked.entered r.2
  = Linked.entered m
    ++ replicate depth (Linked.Entered_vkAllocateMemory
                          {| am_device := device; am_pAllocateInfo := info;
                             am_pAllocator := a |}).
Proof.
  cbn zeta. revert m. induction depth as [|depth IH]; intros m Hst.
  - cbn. by rewrite app_nil_r.
  - cbn [Linked.vkAllocateMemory]. cbn zeta.
    set (m1 := Linked.enter _ m).
    assert (Hst1 : features_initialized_ (Linked.g_wrapper m1) = false \/
                   OptimizeMemoryAllocation (device_context_ (Linked.g_wrapper m1)) info
                   = info) by done.
    destruct (IH m1 Hst1) as (H1 & H2 & H3 & H4).
    assert (Hsame : (if negb (features_initialized_ (Linked.g_wrapper m1))
                     then Linked.vkAllocateMemory depth m1 device info a
                     else Linked.vkAllocateMemory depth m1 device
                            (OptimizeMemoryAllocation
                               (device_context_ (Linked.g_wrapper m1)) info) a)
                    = Linked.vkAllocateMemory depth m1 device info a).
    { destruct Hst1 as [->| ->]; [done|]. by destruct (negb _). }
    rewrite Hsame, H1, H2, H3, H4. subst m1. cbn. by rewrite <- app_assoc.
Qed.

Lemma OptimizeMemoryAllocation_idem ctx ctx' info :
  OptimizeMemoryAllocation ctx (OptimizeMemoryAllocation ctx' info)
  = OptimizeMemoryAllocation ctx' info.
Proof.
  rewrite !OptimizeMemoryAllocation_set. unfold set_allocationSize.
  cbn [allocationSize mai_sType mai_pNext memoryTypeIndex].
  set (x := wrap32 (wrap64 (allocationSize info + 63))).
  assert (Hx : 0 <= x < 2 ^ 32) by (apply Z.mod_pos_bound; lia).
  pose proof (Z.div_mod x 64 ltac:(lia)) as Hdm.
  pose proof (Z.mod_pos_bound x 64 ltac:(lia)) as Hb.
  f_equal. unfold wrap32, wrap64.
  rewrite (Z.mod_small (_ + 63)) by lia. rewrite Z.mod_small by lia.
  replace (x / 64 * 64 + 63) with (63 + x / 64 * 64) by lia.
  rewrite Z.div_add by lia. change (63 / 64) with 0. lia.
Qed.

(** The descriptor loop leaves an already rewritten batch and memory as
    they are. *)
Lemma descriptor_loop_settled n infos mem :
  let res := for_each n infos optimize_descriptor (mem, []) in
  for_each n res.2 optimize_descriptor (res.1, []) = res.
Proof.
  cbn zeta. rewrite !for_each_take.
  destruct (optimize_batch (take n infos) mem []) as (Hout & Hr & Hm).
  cbn zeta in Hout, Hr, Hm. rewrite app_nil_l in Hout.
  set (res := foldl _ (mem, []) (take n infos)) in *.
  destruct (optimize_batch (take n res.2) res.1 []) as (Hout' & Hr' & Hm').
  cbn zeta in Hout', Hr', Hm'. rewrite app_nil_l in Hout'.
  set (res' := foldl _ (res.1, []) (take n res.2)) in *.
  assert (Htake : take n res.2 = take n infos).
  { rewrite Hout. rewrite take_take. f_equal. lia. }
  rewrite Htake in Hout', Hr', Hm'.
  destruct res as [mem1 out1], res' as [mem2 out2]. cbn [fst snd] in *.
  f_equal; [|congruence].
  apply memory_eq; apply map_eq; intros p.
  - rewrite Hr', Hr, !alter_targets_lookup by apply OptimizeRasterizationState_idem.
    case_decide; [|done]. rewrite <- option_fmap_compose.
    apply option_fmap_ext. intros st. apply OptimizeRasterizationState_idem.
  - rewrite Hm', Hm, !alter_targets_lookup by apply OptimizeMultisampleState_idem.
    case_decide; [|done]. rewrite <- option_fmap_compose.
    apply option_fmap_ext. intros st. apply OptimizeMultisampleState_idem.
Qed.


(** With a batch and a memory the wrapper hands on as they are, every
    entry of [vkCreateGraphicsPipelines] carries that batch and memory. *)
Lemma linked_graphics_stable depth m d pc n infos a pPipelines :
  features_initialized_ (Linked.g_wrapper m) = false \/
  for_each n infos optimize_descriptor (Linked.memory m, []) = (Linked.memory m, infos) ->
  let r := Linked.vkCreateGraphicsPipelines depth m d pc n infos a pPipelines in
  r.1 = None /\
  Linked.g_wrapper r.2 = Linked.g_wrapper m /\
  Linked.memory r.2 = Linked.memory m /\
  Linked.entered r.2
  = Linked.entered m
    ++ replicate depth (Linked.Entered_vkCreateGraphicsPipelines
                          {| gp_device := d; gp_pipelineCache := pc;
                             gp_createInfoCount := n; gp_pCreateInfos := infos;
                             gp_pAllocator := a; gp_memory := Linked.memory m |}).
Proof.
  cbn zeta. revert m. induction depth as [|depth IH]; intros m Hst.
  - cbn. by rewrite app_nil_r.
  - cbn [Linked.vkCreateGraphicsPipelines]. cbn zeta.
    set (m1 := Linked.enter _ m).
    assert (Hst1 : features_initialized_ (Linked.g_wrapper m1) = false \/
                   for_each n infos optimize_descriptor (Linked.memory m1, [])
                   = (Linked.memory m1, infos)) by done.
    destruct (IH m1 Hst1) as (H1 & H2 & H3 & H4).
    destruct (features_initialized_ (Linked.g_wrapper m1)) eqn:Hf; cbn [negb].
    + destruct Hst1 as [?|Hl]; [done|]. rewrite Hl, set_memory_same.
      destruct (Linked.vkCreateGraphicsPipelines depth m1 d pc n infos a pPipelines)
        as [res m2].
      cbn [fst snd] in H1, H2, H3, H4. subst res. cbn [fst snd].
      rewrite H2, H3, H4. subst m1. cbn. by rewrite <- app_assoc.
    + rewrite H1, H2, H3, H4. subst m1. cbn. by rewrite <- app_assoc.
Qed.

(** [vkCreateComputePipelines] re-enters itself with the arguments it was
    given. *)
Lemma linked_compute depth m d pc n infos a pPipelines :
  let r := Linked.vkCreateComputePipelines depth m d pc n infos a pPipelines in
  r.1 = None /\
  Linked.g_wrapper r.2 = Linked.g_wrapper m /\
  Linked.memory r.2 = Linked.memory m /\
  Linked.entered r.2
  = Linked.entered m
    ++ replicate depth (Linked.Entered_vkCreateComputePipelines
                          {| cp_device := d; cp_pipelineCache := pc;
                             cp_createInfoCount := n; cp_pCreateInfos := infos;
                             cp_pAllocator := a |}).
Proof.
  cbn zeta. revert m. induction depth as [|depth IH]; intros m.
  - cbn. by rewrite app_nil_r.
  - cbn [Linked.vkCreateComputePipelines]. cbn zeta.
    set (m1 := Linked.enter _ m).
    destruct (IH m1) as (H1 & H2 & H3 & H4).
    destruct (Linked.vkCreateComputePipelines depth m1 d pc n infos a pPipelines)
      as [res m2].
    cbn [fst snd] in H1, H2, H3, H4. subst res. cbn [fst snd].
    rewrite H2, H3, H4. subst m1. cbn. by rewrite <- app_assoc.
Qed.

(** C7.  Every call [QueueSubmit] makes under the name [vkQueueSubmit]
    carries the queue, the count, the array of submissions and the fence
    of the original call, in every wrapper state and for every batch, hence
    for every outcome of the workload classification: the entries logged
    by a call are as many copies of the original arguments as there are
    nested entries.  (The callee is the entry point of the same name of the
    layer itself, so none of these calls has returned at any depth; the
    wrapper and the caller memory are untouched.) *)
Theorem queue_submit_passes_batch_unchanged (depth : nat) (m : Linked.Machine)
    (queue : Z) (submitCount : nat) (pSubmits : list VkSubmitInfo) (fence : Z) :
  let r := Linked.vkQueueSubmit depth m queue submitCount pSubmits fence in
  Linked.entered r.2
  = Linked.entered m
    ++ replicate depth (Linked.Entered_vkQueueSubmit
                          {| qs_queue := queue; qs_submitCount := submitCount;
                             qs_pSubmits := pSubmits; qs_fence := fence |}) /\
  Linked.g_wrapper r.2 = Linked.g_wrapper m /\
  Linked.memory r.2 = Linked.memory m /\
  r.1 = None.
Proof.
  destruct (linked_submit depth m queue submitCount pSubmits fence) as (H1 & H2 & H3 & H4).
  done.
Qed.

(** C9.  While [features_initialized_] is false, every call that
    graphics-pipeline creation and memory allocation make carries the
    caller's arguments as they were given (the descriptors and the states
    they point to untransformed, the size not rounded), and graphics
    creation, allocation and compute creation leave the wrapper, hence the
    record map, as it was.  (None of the calls has returned at any depth:
    compute creation therefore records nothing in any case.) *)
Theorem uninitialized_calls_pass_arguments_on (depth : nat) (m : Linked.Machine)
    (device pipelineCache : Z) (createInfoCount : nat)
    (gInfos : list VkGraphicsPipelineCreateInfo)
    (cInfos : list VkComputePipelineCreateInfo)
    (info : VkMemoryAllocateInfo) (pAllocator : Z) (pPipelines : list Z) :
  features_initialized_ (Linked.g_wrapper m) = false ->
  let g := Linked.vkCreateGraphicsPipelines depth m device pipelineCache
             createInfoCount gInfos pAllocator pPipelines in
  let a := Linked.vkAllocateMemory depth m device info pAllocator in
  let c := Linked.vkCreateComputePipelines depth m device pipelineCache
             createInfoCount cInfos pAllocator pPipelines in
  Linked.entered g.2
  = Linked.entered m
    ++ replicate depth (Linked.Entered_vkCreateGraphicsPipelines
                          {| gp_device := device; gp_pipelineCache := pipelineCache;
                             gp_createInfoCount := createInfoCount;
                             gp_pCreateInfos := gInfos; gp_pAllocator := pAllocator;
                             gp_memory := Linked.memory m |}) /\
  Linked.memory g.2 = Linked.memory m /\
  Linked.g_wrapper g.2 = Linked.g_wrapper m /\
  Linked.entered a.2
  = Linked.entered m
    ++ replicate depth (Linked.Entered_vkAllocateMemory
                          {| am_device := device; am_pAllocateInfo := info;
                             am_pAllocator := pAllocator |}) /\
  Linked.g_wrapper a.2 = Linked.g_wrapper m /\
  Linked.g_wrapper c.2 = Linked.g_wrapper m /\
  g.1 = None /\ a.1 = None /\ c.1 = None.
Proof.
  intros Hi. cbn zeta.
  destruct (linked_graphics_stable depth m device pipelineCache createInfoCount gInfos
              pAllocator pPipelines (or_introl Hi)) as (G1 & G2 & G3 & G4).
  destruct (linked_allocate_stable depth m device info pAllocator (or_introl Hi))
    as (A1 & A2 & A3 & A4).
  destruct (linked_compute depth m device pipelineCache createInfoCount cInfos
              pAllocator pPipelines) as (C1 & C2 & C3 & C4).
  done.
Qed.

Lemma uninitialized_calls_pass_arguments_on_witness :
  Linked.entered
    (Linked.vkAllocateMemory 3 (Linked.loaded sample_memory) 2
       (sample_allocate_info 100 1) 0).2
  = replicate 3 (Linked.Entered_vkAllocateMemory
                   {| am_device := 2; am_pAllocateInfo := sample_allocate_info 100 1;
                      am_pAllocator := 0 |}).
Proof.
  apply (proj1 (proj2 (proj2 (proj2 (uninitialized_calls_pass_arguments_on 3
           (Linked.loaded sample_memory) 2 0 1 [sample_graphics_info 0 0]
           [sample_compute_info] (sample_allocate_info 100 1) 0 [0] eq_refl))))).
Defined.




(** ** The descriptor loop of [CreateGraphicsPipelines] *)

Lemma descriptor_loop_memory (mem : Memory) (n : nat)
    (infos : list VkGraphicsPipelineCreateInfo) :
  let res := for_each n infos optimize_descriptor (mem, []) in
  res.2 = take n infos /\
  (forall p, rasterization_states res.1 !! p
             = if decide (p ∈ rasterization_targets (take n infos))
               then OptimizeRasterizationState <$> rasterization_states mem !! p
               else rasterization_states mem !! p) /\
  (forall p, multisample_states res.1 !! p
             = if decide (p ∈ multisample_targets (take n infos))
               then OptimizeMultisampleState <$> multisample_states mem !! p
               else multisample_states mem !! p).
Proof.
  cbn zeta. rewrite for_each_take.
  destruct (optimize_batch (take n infos) mem []) as (Hout & Hr & Hm).
  cbn zeta in Hout, Hr, Hm. rewrite Hout, Hr, Hm, app_nil_l.
  split; [done|]. split; intros p.
  - apply alter_targets_lookup, OptimizeRasterizationState_idem.
  - apply alter_targets_lookup, OptimizeMultisampleState_idem.
Qed.

(** C8.  The loop that prepares a graphics batch before the call is made
    (xclipse_wrapper.cpp, the [for] loop of [CreateGraphicsPipelines])
    builds a vector of the caller's descriptors, field for field (stages,
    layout, render pass and subpass included), in the caller's order.  What
    it changes is the memory the descriptors point to: each rasterization
    state of the batch has depth bias, depth clamp and rasterizer discard
    switched off and a cull mode of NONE turned into BACK, each multisample
    state of the batch has its sample count lowered to 4 if it was larger
    (1 stays 1), and no other state and no other field is written.  Read
    together with its two states, a descriptor after the loop is
    [transform] of the same descriptor before it, a function that knows
    neither the position nor the rest of the batch. *)
Theorem descriptor_loop_transformation (mem : Memory) (n : nat)
    (infos : list VkGraphicsPipelineCreateInfo) :
  let res := for_each n infos optimize_descriptor (mem, []) in
  res.2 = take n infos /\
  (forall i info, (i < n)%nat -> infos !! i = Some info ->
     res.2 !! i = Some info /\
     resolve res.1 info = transform (resolve mem info)) /\
  (forall p, rasterization_states res.1 !! p
             = if decide (p ∈ rasterization_targets (take n infos))
               then OptimizeRasterizationState <$> rasterization_states mem !! p
               else rasterization_states mem !! p) /\
  (forall p, multisample_states res.1 !! p
             = if decide (p ∈ multisample_targets (take n infos))
               then OptimizeMultisampleState <$> multisample_states mem !! p
               else multisample_states mem !! p) /\
  (forall s, OptimizeRasterizationState s
     = {| rast_sType := rast_sType s; rast_pNext := rast_pNext s;
          rast_flags := rast_flags s;
          depthClampEnable := VK_FALSE;
          rasterizerDiscardEnable := VK_FALSE;
          polygonMode := polygonMode s;
          cullMode := if cullMode s =? VK_CULL_MODE_NONE
                      then VK_CULL_MODE_BACK_BIT else cullMode s;
          frontFace := frontFace s;
          depthBiasEnable := VK_FALSE;
          depthBiasConstantFactor := depthBiasConstantFactor s;
          depthBiasClamp := depthBiasClamp s;
          depthBiasSlopeFactor := depthBiasSlopeFactor s;
          lineWidth := lineWidth s |}) /\
  (forall s, OptimizeMultisampleState s
             = set_rasterizationSamples
                 (Z.min (rasterizationSamples s) VK_SAMPLE_COUNT_4_BIT) s /\
             rasterizationSamples (OptimizeMultisampleState s) <= 4 /\
             (rasterizationSamples s = VK_SAMPLE_COUNT_1_BIT ->
              OptimizeMultisampleState s = s)).
Proof.
  cbn zeta. destruct (descriptor_loop_memory mem n infos) as (Hout & HR & HM).
  cbn zeta in Hout, HR, HM.
  split; [done|]. split; [|split; [done|split; [done|split]]].
  - intros i info Hlt Hinfo.
    assert (Hin : info ∈ take n infos).
    { apply list_elem_of_lookup. exists i. by rewrite lookup_take_lt. }
    split; [by rewrite Hout, lookup_take_lt|].
    unfold resolve, transform. cbn [rd_info rd_rasterization rd_multisample].
    f_equal.
    + destruct (Z.eqb_spec (pRasterizationState info) 0) as [|Hp]; [done|].
      rewrite HR, decide_True; [done|].
      apply elem_of_targets. split; [done|]. apply list_elem_of_fmap. by exists info.
    + destruct (Z.eqb_spec (pMultisampleState info) 0) as [|Hp]; [done|].
      rewrite HM, decide_True; [done|].
      apply elem_of_targets. split; [done|]. apply list_elem_of_fmap. by exists info.
  - apply OptimizeRasterizationState_fields.
  - intros s. split; [apply OptimizeMultisampleState_fields|]. split.
    + rewrite OptimizeMultisampleState_fields. cbn. unfold VK_SAMPLE_COUNT_4_BIT. lia.
    + intros H1. unfold OptimizeMultisampleState. by rewrite H1.
Qed.

Lemma descriptor_loop_transformation_witness :
  let batch := [sample_graphics_info 810 820; sample_graphics_info 810 820] in
  let res := for_each 2 batch optimize_descriptor (sample_shared_memory, []) in
  res.2 !! 1%nat = Some (sample_graphics_info 810 820) /\
  resolve res.1 (sample_graphics_info 810 820)
  = transform (resolve sample_shared_memory (sample_graphics_info 810 820)).
Proof.
  cbn zeta.
  apply (proj1 (proj2 (descriptor_loop_transformation sample_shared_memory 2
                  [sample_graphics_info 810 820; sample_graphics_info 810 820]))
           1%nat (sample_graphics_info 810 820)).
  - lia.
  - reflexivity.
Defined.

(** ** More on the linked entry points and on the private functions *)

(** X2.  [vkAllocateMemory] never returns and never changes the wrapper,
    in any state: it re-enters itself.  The first entry carries the
    caller's request; when the device context is initialized every later
    entry carries the request with its size rounded by
    [OptimizeMemoryAllocation], otherwise the request as given. *)
Theorem allocate_reenters_itself (depth : nat) (m : Linked.Machine)
    (device : Z) (info : VkMemoryAllocateInfo) (a : Z) :
  let r := Linked.vkAllocateMemory (S depth) m device info a in
  let passed := if features_initialized_ (Linked.g_wrapper m)
                then OptimizeMemoryAllocation (device_context_ (Linked.g_wrapper m)) info
                else info in
  r.1 = None /\
  Linked.g_wrapper r.2 = Linked.g_wrapper m /\
  Linked.entered r.2
  = Linked.entered m
    ++ Linked.Entered_vkAllocateMemory
         {| am_device := device; am_pAllocateInfo := info; am_pAllocator := a |}
       :: replicate depth (Linked.Entered_vkAllocateMemory
                             {| am_device := device; am_pAllocateInfo := passed;
                                am_pAllocator := a |}).
Proof.
  cbn zeta. cbn [Linked.vkAllocateMemory]. cbn zeta.
  set (m1 := Linked.enter _ m).
  change (Linked.g_wrapper m1) with (Linked.g_wrapper m).
  destruct (features_initialized_ (Linked.g_wrapper m)) eqn:Hf; cbn [negb].
  - destruct (linked_allocate_stable depth m1 device
                (OptimizeMemoryAllocation (device_context_ (Linked.g_wrapper m)) info) a
                (or_intror (OptimizeMemoryAllocation_idem _ _ _)))
      as (-> & -> & _ & ->).
    subst m1. cbn. by rewrite <- app_assoc.
  - destruct (linked_allocate_stable depth m1 device info a (or_introl Hf))
      as (-> & -> & _ & ->).
    subst m1. cbn. by rewrite <- app_assoc.
Qed.

(** X5.  Caching a compute batch and running the post-pass over it, as
    [CreateComputePipelines] does after a successful call, leaves for every
    handle of the batch a compute record whose usage counter is one more
    than the number of times the handle occurs in the batch (modulo 2^64):
    2 for a handle that occurs once, 3 for one that occurs twice. *)
Theorem post_pass_counts_occurrences (pPipelines : list Z) (n : nat)
    (w : Xclipse940Wrapper) (h : Z) :
  h ∈ batch_handles n pPipelines ->
  pipeline_cache_
    (for_each n pPipelines OptimizeComputePipeline
       (CachePipelines pPipelines n VK_PIPELINE_BIND_POINT_COMPUTE w)) !! h
  = Some (created_state VK_PIPELINE_BIND_POINT_COMPUTE
            (wrap64 (1 + Z.of_nat (occurrences h (batch_handles n pPipelines)))) h).
Proof.
  intros Hin. rewrite for_each_take, post_pass_fold.
  cbn [pipeline_cache_ set_pipeline_cache_].
  rewrite post_pass_lookup_occurrences, CachePipelines_lookup, decide_True by done.
  cbn [fmap option_fmap option_map]. by rewrite iter_bump_created.
Qed.

Lemma post_pass_counts_occurrences_witness :
  pipeline_cache_
    (for_each 3 [7; 8; 7] OptimizeComputePipeline
       (CachePipelines [7; 8; 7] 3 VK_PIPELINE_BIND_POINT_COMPUTE g_wrapper_initial)) !! 7
  = Some (created_state VK_PIPELINE_BIND_POINT_COMPUTE 3 7).
Proof.
  apply (post_pass_counts_occurrences [7; 8; 7] 3 g_wrapper_initial 7).
  cbn. apply list_elem_of_here.
Defined.

(** X6.  [CachePipelines] and the post-pass touch only the records of the
    handles of the batch: the record (or absence of a record) of any other
    handle is the same before and after. *)
Theorem caching_leaves_other_records (pPipelines : list Z) (n : nat)
    (bp : VkPipelineBindPoint) (w : Xclipse940Wrapper) (h : Z) :
  h ∉ batch_handles n pPipelines ->
  pipeline_cache_ (CachePipelines pPipelines n bp w) !! h = pipeline_cache_ w !! h /\
  pipeline_cache_
    (for_each n pPipelines OptimizeComputePipeline (CachePipelines pPipelines n bp w)) !! h
  = pipeline_cache_ w !! h.
Proof.
  intros Hout. rewrite for_each_take, post_pass_fold.
  cbn [pipeline_cache_ set_pipeline_cache_].
  rewrite post_pass_lookup_occurrences, occurrences_absent by done.
  rewrite CachePipelines_lookup, decide_False by done.
  split; [done|]. cbn. by destruct (pipeline_cache_ w !! h).
Qed.

Lemma caching_leaves_other_records_witness :
  let w := CachePipelines [9] 1 VK_PIPELINE_BIND_POINT_GRAPHICS g_wrapper_initial in
  pipeline_cache_ (CachePipelines [7; 8] 2 VK_PIPELINE_BIND_POINT_COMPUTE w) !! 9
  = pipeline_cache_ w !! 9.
Proof.
  cbn zeta.
  refine (proj1 (caching_leaves_other_records [7; 8] 2 VK_PIPELINE_BIND_POINT_COMPUTE
            (CachePipelines [9] 1 VK_PIPELINE_BIND_POINT_GRAPHICS g_wrapper_initial) 9 _)).
  cbn. rewrite !not_elem_of_cons. repeat split; try discriminate. apply not_elem_of_nil.
Defined.

(** X8.  For a size of at most [2^32 - 64], [OptimizeMemoryAllocation]
    rounds up to the cache line: the new size is the smallest multiple of
    64 that is at least the old one, exceeds it by less than 64, and equals
    it when the old size is already a multiple of 64. *)
Theorem rounding_up_to_cache_line (ctx : option DeviceContext) (info : VkMemoryAllocateInfo) :
  0 <= allocationSize info <= 2 ^ 32 - 64 ->
  let size := allocationSize (OptimizeMemoryAllocation ctx info) in
  smallest_multiple_ge kCacheLineSize (allocationSize info) size /\
  size < allocationSize info + 64 /\
  (allocationSize info mod 64 = 0 -> size = allocationSize info).
Proof.
  intros Hs. cbn zeta.
  split; [by apply OptimizeMemoryAllocation_rounds_small|].
  rewrite OptimizeMemoryAllocation_size. unfold wrap32, wrap64.
  rewrite (Z.mod_small (_ + 63)) by lia. rewrite Z.mod_small by lia.
  pose proof (Z.div_mod (allocationSize info + 63) 64 ltac:(lia)) as Hdm.
  pose proof (Z.mod_pos_bound (allocationSize info + 63) 64 ltac:(lia)) as Hb.
  split; [lia|]. intros Hm.
  pose proof (Z.div_mod (allocationSize info) 64 ltac:(lia)) as Hdm'.
  rewrite Hm in Hdm'.
  replace (allocationSize info + 63) with (63 + allocationSize info / 64 * 64) by lia.
  rewrite Z.div_add by lia. change (63 / 64) with 0. lia.
Qed.

Lemma rounding_up_to_cache_line_witness :
  allocationSize (OptimizeMemoryAllocation None (sample_allocate_info 100 0)) < 100 + 64.
Proof.
  refine (proj1 (proj2 (rounding_up_to_cache_line None (sample_allocate_info 100 0) _))).
  cbn. lia.
Defined.

(** X9.  [OptimizeMemoryAllocation] changes the size and nothing else, and
    what it writes does not depend on the device context it inspects: for
    any size the new size is a multiple of 64 between 0 and [2^32 - 64],
    the type tag, the extension chain and the memory-type index are kept,
    two contexts give the same result, and the function is idempotent. *)
Theorem rounding_changes_only_the_size (ctx ctx' : option DeviceContext)
    (info : VkMemoryAllocateInfo) :
  let info' := OptimizeMemoryAllocation ctx info in
  (kCacheLineSize | allocationSize info') /\
  0 <= allocationSize info' <= 2 ^ 32 - 64 /\
  mai_sType info' = mai_sType info /\ mai_pNext info' = mai_pNext info /\
  memoryTypeIndex info' = memoryTypeIndex info /\
  OptimizeMemoryAllocation ctx' info = info' /\
  OptimizeMemoryAllocation ctx' info' = info'.
Proof.
  cbn zeta. rewrite OptimizeMemoryAllocation_idem.
  rewrite !OptimizeMemoryAllocation_set.
  cbn [allocationSize set_allocationSize mai_sType mai_pNext memoryTypeIndex].
  set (x := wrap32 (wrap64 (allocationSize info + 63))).
  assert (Hx : 0 <= x < 2 ^ 32) by (apply Z.mod_pos_bound; lia).
  pose proof (Z.div_mod x 64 ltac:(lia)) as Hdm.
  pose proof (Z.mod_pos_bound x 64 ltac:(lia)) as Hb.
  split; [exists (x / 64); unfold kCacheLineSize; lia|]. split; [lia|]. done.
Qed.

(** X11.  The descriptor loop is idempotent and neither creates nor
    removes a state: run again on its own result it changes nothing, and
    the addresses that hold a rasterization or a multisample state are the
    same before and after. *)
Theorem descriptor_loop_idempotent (mem : Memory) (n : nat)
    (infos : list VkGraphicsPipelineCreateInfo) :
  let res := for_each n infos optimize_descriptor (mem, []) in
  for_each n res.2 optimize_descriptor (res.1, []) = res /\
  dom (rasterization_states res.1) = dom (rasterization_states mem) /\
  dom (multisample_states res.1) = dom (multisample_states mem).
Proof.
  cbn zeta. split; [apply descriptor_loop_settled|].
  destruct (descriptor_loop_memory mem n infos) as (_ & Hr & Hm). cbn zeta in Hr, Hm.
  split; apply set_eq; intros p; rewrite !elem_of_dom.
  - rewrite Hr. case_decide; [|done]. by rewrite fmap_is_Some.
  - rewrite Hm. case_decide; [|done]. by rewrite fmap_is_Some.
Qed.

(** X12.  After the descriptor loop every rasterization state that a
    descriptor of the batch points to has depth bias, depth clamp and
    rasterizer discard off and a cull mode other than NONE, and every
    multisample state that a descriptor of the batch points to has a sample
    count of at most 4. *)
Theorem states_after_descriptor_loop (mem : Memory) (n : nat)
    (infos : list VkGraphicsPipelineCreateInfo)
    (i : nat) (info : VkGraphicsPipelineCreateInfo) :
  (i < n)%nat -> infos !! i = Some info ->
  let mem' := (for_each n infos optimize_descriptor (mem, [])).1 in
  (forall st, pRasterizationState info <> 0 ->
     rasterization_states mem' !! pRasterizationState info = Some st ->
     depthBiasEnable st = VK_FALSE /\ depthClampEnable st = VK_FALSE /\
     rasterizerDiscardEnable st = VK_FALSE /\ cullMode st <> VK_CULL_MODE_NONE) /\
  (forall st, pMultisampleState info <> 0 ->
     multisample_states mem' !! pMultisampleState info = Some st ->
     rasterizationSamples st <= 4).
Proof.
  intros Hlt Hinfo. cbn zeta.
  destruct (descriptor_loop_memory mem n infos) as (_ & Hr & Hm). cbn zeta in Hr, Hm.
  assert (Hin : info ∈ take n infos).
  { apply list_elem_of_lookup. exists i. by rewrite lookup_take_lt. }
  split; intros st Hp.
  - rewrite Hr, decide_True.
    2:{ apply elem_of_targets. split; [done|]. apply list_elem_of_fmap. by exists info. }
    destruct (rasterization_states mem !! pRasterizationState info) as [s0|]; [|done].
    cbn. intros [= <-]. rewrite OptimizeRasterizationState_fields. cbn.
    repeat split. by destruct (Z.eqb_spec (cullMode s0) VK_CULL_MODE_NONE).
  - rewrite Hm, decide_True.
    2:{ apply elem_of_targets. split; [done|]. apply list_elem_of_fmap. by exists info. }
    destruct (multisample_states mem !! pMultisampleState info) as [s0|]; [|done].
    cbn. intros [= <-]. rewrite OptimizeMultisampleState_fields. cbn.
    unfold VK_SAMPLE_COUNT_4_BIT. lia.
Qed.

Lemma states_after_descriptor_loop_witness :
  multisample_states
    (for_each 1 [sample_graphics_info 810 820] optimize_descriptor
       (sample_shared_memory, [])).1 !! 820
  = Some (sample_multisample 4) /\
  rasterizationSamples (sample_multisample 4) <= 4.
Proof.
  assert (Hl : multisample_states
                 (for_each 1 [sample_graphics_info 810 820] optimize_descriptor
                    (sample_shared_memory, [])).1 !! 820
               = Some (sample_multisample 4)) by (vm_compute; reflexivity).
  split; [exact Hl|].
  refine (proj2 (states_after_descriptor_loop sample_shared_memory 1
                   [sample_graphics_info 810 820] 0 (sample_graphics_info 810 820)
                   _ eq_refl) (sample_multisample 4) _ Hl).
  - lia.
  - cbn. discriminate.
Defined.
